(** * The registrar helpdesk chatbot: the message-intent router

    A shallow embedding of [backend/routes/chatbot.js] and the properties of
    its priority chain (greeting, confirmation, department lookup, FAQ match,
    ticket status, implicit ticket need, completion fallback).

    Text is modelled as [string], a sequence of 8-bit characters: the source
    text of the canned replies is kept byte for byte (UTF-8), and case
    folding, whitespace and the character classes of the patterns are those
    of the ASCII range. On text of the ASCII range a character of the model
    is a UTF-16 unit of the code, so that lengths, cuts, case folding and
    trimming are the code's; outside it the code counts and cuts UTF-16
    units, folds the case of other letters and trims other white space
    (U+00A0, U+3000, U+FEFF). Several properties are therefore stated for
    text of the ASCII range, see [isAscii].

    The fields [message], [originalMessage] and [category] of a request are
    strings in the model. A context whose original message is a number or an
    object makes the code throw a TypeError at the head of the confirmation
    stage, which the outer handler answers with status 500; such a request
    has no counterpart here. *)

From Stdlib Require Import String Ascii List Bool Arith NArith Lia.
From Stdlib Require Import Sorting.Sorted Sorting.Permutation.
Import ListNotations.
Open Scope list_scope.
Open Scope string_scope.
Open Scope nat_scope.

(** ** Strings as the code uses them *)

Module JsString.

Definition code (c : ascii) : nat := nat_of_ascii c.

Definition inRange (lo hi : nat) (c : ascii) : bool :=
  (lo <=? code c) && (code c <=? hi).

Definition isUpper : ascii -> bool := inRange 65 90.
Definition isLower : ascii -> bool := inRange 97 122.
Definition isDigit : ascii -> bool := inRange 48 57.

(** White space of [String.prototype.trim] and of the class [\s]:
    TAB, LF, VT, FF, CR and SPACE. *)
Definition isSpace (c : ascii) : bool :=
  inRange 9 13 c || (code c =? 32).

(** Line terminators, which [.] does not match. *)
Definition isLineTerminator (c : ascii) : bool :=
  (code c =? 10) || (code c =? 13).

Definition lowerChar (c : ascii) : ascii :=
  if isUpper c then ascii_of_nat (code c + 32) else c.

Definition upperChar (c : ascii) : ascii :=
  if isLower c then ascii_of_nat (code c - 32) else c.

Fixpoint mapChars (f : ascii -> ascii) (s : string) : string :=
  match s with
  | EmptyString => EmptyString
  | String c s' => String (f c) (mapChars f s')
  end.

Definition toLowerCase : string -> string := mapChars lowerChar.
Definition toUpperCase : string -> string := mapChars upperChar.

Fixpoint rev (s : string) : string :=
  match s with
  | EmptyString => EmptyString
  | String c s' => rev s' ++ String c EmptyString
  end.

Fixpoint trimStart (s : string) : string :=
  match s with
  | EmptyString => EmptyString
  | String c s' => if isSpace c then trimStart s' else s
  end.

Definition trimEnd (s : string) : string := rev (trimStart (rev s)).

Definition trim (s : string) : string := trimEnd (trimStart s).

Fixpoint startsWith (s p : string) {struct p} : bool :=
  match p, s with
  | EmptyString, _ => true
  | String a p', String b s' => Ascii.eqb a b && startsWith s' p'
  | String _ _, EmptyString => false
  end.

(** [s.includes(sub)] *)
Fixpoint includes (s sub : string) : bool :=
  startsWith s sub ||
  match s with
  | EmptyString => false
  | String _ s' => includes s' sub
  end.

(** [s.substring(0, n)] *)
Fixpoint take (n : nat) (s : string) : string :=
  match n, s with
  | S n', String c s' => String c (take n' s')
  | _, _ => EmptyString
  end.

(** Truthiness of a string: the empty string is falsy. *)
Definition truthy (s : string) : bool :=
  match s with EmptyString => false | String _ _ => true end.

(** [a || b] on strings. *)
Definition orElse (a b : string) : string := if truthy a then a else b.

(** [s.split(/\s+/)]: the pieces between maximal runs of white space; a
    leading or trailing run leaves an empty piece at that end. *)
Fixpoint splitWs (s : string) (cur : string) (inRun : bool) : list string :=
  match s with
  | EmptyString => [rev cur]
  | String c s' =>
      if isSpace c
      then if inRun then splitWs s' EmptyString true
           else rev cur :: splitWs s' EmptyString true
      else splitWs s' (String c cur) false
  end.

Definition splitWhitespace (s : string) : list string :=
  splitWs s EmptyString false.

(** [xs.join(sep)] *)
Fixpoint join (sep : string) (xs : list string) : string :=
  match xs with
  | [] => EmptyString
  | [x] => x
  | x :: rest => x ++ sep ++ join sep rest
  end.

(** [xs.some(p)] *)
Definition some {A} (p : A -> bool) (xs : list A) : bool := existsb p xs.

(** Decimal rendering of a number in a template literal. *)
Definition digitChar (n : nat) : ascii := ascii_of_nat (48 + n).

Fixpoint natToStringAux (fuel n : nat) (acc : string) : string :=
  match fuel with
  | O => acc
  | S fuel' =>
      let acc' := String (digitChar (n mod 10)) acc in
      if n / 10 =? 0 then acc' else natToStringAux fuel' (n / 10) acc'
  end.

Definition natToString (n : nat) : string := natToStringAux (S n) n EmptyString.

(** [parseInt] on a string of decimal digits, as an exact number. The code
    holds the result in a double, which is this number as long as it is
    below 2^53. *)
Fixpoint parseDigits (s : string) (acc : N) : N :=
  match s with
  | EmptyString => acc
  | String c s' =>
      if isDigit c
      then parseDigits s' (10 * acc + N.of_nat (code c - 48))%N
      else acc
  end.

Definition parseInt (s : string) : N := parseDigits s 0%N.

Definition quote : string := String (ascii_of_nat 34) EmptyString.
Definition nl : string := String (ascii_of_nat 10) EmptyString.

End JsString.

(** ** A backtracking matcher for the patterns of the source

    Priorities are those of the ECMAScript matcher: alternatives left to
    right, greedy repetition longest first, lazy repetition shortest first,
    and the search tries the start positions from the left. *)

Module Regex.
Import JsString.

Inductive regex : Type :=
| REps
| RChar (a : ascii)
| RClass (f : ascii -> bool)
| RAny
| REnd
| RSeq (r1 r2 : regex)
| RAlt (r1 r2 : regex)
| RStar (greedy : bool) (r : regex)
| RGroup (n : nat) (r : regex).

Definition RPlus (greedy : bool) (r : regex) : regex :=
  RSeq r (RStar greedy r).

Fixpoint RLit (s : string) : regex :=
  match s with
  | EmptyString => REps
  | String a s' => RSeq (RChar a) (RLit s')
  end.

Fixpoint RAlts (rs : list regex) : regex :=
  match rs with
  | [] => RClass (fun _ => false)
  | [r] => r
  | r :: rest => RAlt r (RAlts rest)
  end.

Definition captures := list (nat * string).

Fixpoint capture (n : nat) (c : captures) : option string :=
  match c with
  | [] => None
  | (m, s) :: rest => if m =? n then Some s else capture n rest
  end.

(** Does character [b] of the input match pattern character [a]? *)
Definition charMatches (ignoreCase : bool) (a b : ascii) : bool :=
  if ignoreCase then Ascii.eqb (upperChar a) (upperChar b) else Ascii.eqb a b.

Definition classMatches (ignoreCase : bool) (f : ascii -> bool) (b : ascii) : bool :=
  if ignoreCase then f b || f (upperChar b) || f (lowerChar b) else f b.

(** The part of [s] consumed when [s'] is what remains of it. *)
Definition consumed (s s' : string) : string :=
  take (String.length s - String.length s') s.

Fixpoint matchRe (ic : bool) (r : regex) (s : string) (c : captures)
    (k : string -> captures -> option captures) {struct r} : option captures :=
  match r with
  | REps => k s c
  | RChar a =>
      match s with
      | String b s' => if charMatches ic a b then k s' c else None
      | EmptyString => None
      end
  | RClass f =>
      match s with
      | String b s' => if classMatches ic f b then k s' c else None
      | EmptyString => None
      end
  | RAny =>
      match s with
      | String b s' => if isLineTerminator b then None else k s' c
      | EmptyString => None
      end
  | REnd =>
      match s with
      | EmptyString => k s c
      | String _ _ => None
      end
  | RSeq r1 r2 => matchRe ic r1 s c (fun s' c' => matchRe ic r2 s' c' k)
  | RAlt r1 r2 =>
      match matchRe ic r1 s c k with
      | Some res => Some res
      | None => matchRe ic r2 s c k
      end
  | RGroup n r1 =>
      matchRe ic r1 s c (fun s' c' => k s' ((n, consumed s s') :: c'))
  | RStar greedy r1 =>
      (fix loop (fuel : nat) (s : string) (c : captures) : option captures :=
         match fuel with
         | O => k s c
         | S fuel' =>
             let again :=
               fun _ : unit =>
                 matchRe ic r1 s c
                   (fun s' c' =>
                      if String.length s' <? String.length s
                      then loop fuel' s' c' else None) in
             if greedy
             then match again tt with
                  | Some res => Some res
                  | None => k s c
                  end
             else match k s c with
                  | Some res => Some res
                  | None => again tt
                  end
         end) (String.length s) s c
  end.

Record pattern : Type := Pattern {
  anchored : bool;      (* the pattern starts with [^] *)
  ignoreCase : bool;    (* the [i] flag *)
  body : regex
}.

Definition matchHere (p : pattern) (s : string) : option captures :=
  matchRe (ignoreCase p) (RGroup 0 (body p)) s [] (fun _ c => Some c).

Fixpoint searchFrom (p : pattern) (s : string) : option captures :=
  match matchHere p s with
  | Some c => Some c
  | None =>
      match s with
      | EmptyString => None
      | String _ s' => searchFrom p s'
      end
  end.

(** [s.match(p)] for a pattern without the [g] flag: the captures of the
    leftmost match, group 0 being the whole match. *)
Definition exec (p : pattern) (s : string) : option captures :=
  if anchored p then matchHere p s else searchFrom p s.

(** [p.test(s)] *)
Definition test (p : pattern) (s : string) : bool :=
  match exec p s with Some _ => true | None => false end.

Definition group (n : nat) (c : captures) : string :=
  match capture n c with Some s => s | None => EmptyString end.

End Regex.

Import JsString Regex.

(** ** Data model *)

Definition UserId := nat.

Record FAQ : Type := mkFAQ {
  question : string;
  keywords : list string;
  answer : string
}.

(** [contact] and [phone] are optional; [services] is [None] when the field
    is missing or is not an array. *)
Record Department : Type := mkDepartment {
  name : string;
  location : string;
  hours : string;
  contact : option string;
  phone : option string;
  services : option (list string)
}.

Record RequestDetails : Type := mkRequestDetails {
  numberOfCopies : option N;
  purpose : option string;
  subjectCode : option string;
  subjectName : option string
}.

Definition emptyDetails : RequestDetails := mkRequestDetails None None None None.

(** The object built by [extractTicketInfo]. *)
Record TicketInfo : Type := mkTicketInfo {
  info_title : string;
  info_description : string;
  info_category : string;
  info_priority : string;
  info_requestDetails : RequestDetails
}.

(** The object handed to [new Ticket(...)] by [createTicket]. *)
Record TicketData : Type := mkTicketData {
  data_title : string;
  data_description : string;
  data_category : string;
  data_priority : string;
  data_createdBy : UserId;
  data_status : string;
  data_requestDetails : RequestDetails
}.

Record Resolution : Type := mkResolution {
  rejectionReason : option string;
  resolutionNotes : option string
}.

(** A stored ticket. [createdAt] is a time stamp; larger is newer. The
    creator and the assignee are references to users. *)
Record Ticket : Type := mkTicket {
  _id : string;
  ticketNumber : string;
  title : string;
  description : string;
  category : string;
  priority : string;
  status : string;
  createdBy : UserId;
  assignedTo : option UserId;
  requestDetails : RequestDetails;
  resolution : option Resolution;
  createdAt : nat
}.

(** What the persistence layer adds to a new ticket. *)
Record Generated : Type := mkGenerated {
  gen_id : string;
  gen_ticketNumber : string;
  gen_createdAt : nat
}.

(** Modelled from the spec: the Ticket model ([models/Ticket.js]) is not among
    the sources. A created record carries the data it was built from, a
    system-generated ticket number and identifier and its creation time; it
    has no assignee and no resolution yet. *)
Definition newTicket (g : Generated) (d : TicketData) : Ticket :=
  {| _id := gen_id g;
     ticketNumber := gen_ticketNumber g;
     title := data_title d;
     description := data_description d;
     category := data_category d;
     priority := data_priority d;
     status := data_status d;
     createdBy := data_createdBy d;
     assignedTo := None;
     requestDetails := data_requestDetails d;
     resolution := None;
     createdAt := gen_createdAt g |}.

Record Error : Type := mkError {
  err_name : string;
  err_message : string
}.

(** The client-echoed context; either field may be missing. *)
Record ConversationContext : Type := mkContext {
  originalMessage : option string;
  ctx_category : option string
}.

Inductive Action : Type :=
| ticket_created | ticket_status | ticket_offer | department_info.

Record TicketRef : Type := mkTicketRef {
  ref_id : string;
  ref_ticketNumber : string;
  ref_title : string
}.

Record TicketSummary : Type := mkTicketSummary {
  sum_id : string;
  sum_ticketNumber : string;
  sum_title : string;
  sum_status : string;
  sum_priority : string;
  sum_category : string
}.

Record Response : Type := mkResponse {
  text : string;
  action : option Action;
  ticket : option TicketRef;
  tickets : option (list TicketSummary);
  conversationContext : option ConversationContext
}.

Definition setText (t : string) (r : Response) : Response :=
  mkResponse t (action r) (ticket r) (tickets r) (conversationContext r).
Definition setAction (a : Action) (r : Response) : Response :=
  mkResponse (text r) (Some a) (ticket r) (tickets r) (conversationContext r).
Definition setTicket (t : TicketRef) (r : Response) : Response :=
  mkResponse (text r) (action r) (Some t) (tickets r) (conversationContext r).
Definition setTickets (ts : list TicketSummary) (r : Response) : Response :=
  mkResponse (text r) (action r) (ticket r) (Some ts) (conversationContext r).
Definition setContext (c : ConversationContext) (r : Response) : Response :=
  mkResponse (text r) (action r) (ticket r) (tickets r) (Some c).

(** The request as the handler sees it, after the authentication and
    validation middleware: the sanitised message, the optional context, the
    authenticated user and the validation errors found. *)
Record Request : Type := mkRequest {
  req_message : string;
  req_context : option ConversationContext;
  req_user : UserId;
  req_validationErrors : list string
}.

Inductive Body : Type :=
| Success (data : Response)
| ValidationFailed (errors : list string)
| Failed (message : string) (error : option string).

Record HttpResponse : Type := mkHttp {
  http_status : nat;
  http_body : Body
}.

(** [res.json(...)] answers with status 200. *)
Definition json (b : Body) : HttpResponse := mkHttp 200 b.

(** The process state: the two catalogs loaded at start-up and the ticket
    store, oldest insertion first. *)
Record World : Type := mkWorld {
  faqData : list FAQ;
  departmentData : list Department;
  ticketStore : list Ticket
}.

(** What lies outside the program during one invocation: the server clock,
    the locale's date formats, the outcome of each storage operation and the
    completion service. *)
Record Env : Type := mkEnv {
  hour : nat;
  shortDate : nat -> string;   (* month and day *)
  longDate : nat -> string;    (* month, day and year *)
  saveOutcome : TicketData -> list Ticket -> Error + Generated;
  populateOutcome : option Error;
  findOutcome : option Error;
  openaiApiKey : option string;
  completion : string -> string -> option string;
  development : bool
}.

(** ** State and exceptions *)

Inductive result (A : Type) : Type :=
| Ok (a : A)
| Throw (e : Error).
Arguments Ok {A} a.
Arguments Throw {A} e.

Definition M (A : Type) : Type := World -> result A * World.

Definition ret {A} (a : A) : M A := fun w => (Ok a, w).

Definition bind {A B} (m : M A) (f : A -> M B) : M B :=
  fun w =>
    match m w with
    | (Ok a, w') => f a w'
    | (Throw e, w') => (Throw e, w')
    end.

Definition throw {A} (e : Error) : M A := fun w => (Throw e, w).

Definition tryCatch {A} (m : M A) (handler : Error -> M A) : M A :=
  fun w =>
    match m w with
    | (Ok a, w') => (Ok a, w')
    | (Throw e, w') => handler e w'
    end.

Definition getWorld : M World := fun w => (Ok w, w).
Definition putTickets (ts : list Ticket) : M unit :=
  fun w => (Ok tt, mkWorld (faqData w) (departmentData w) ts).

Notation "x <- m ;; k" := (bind m (fun x => k))
  (at level 61, m at next level, right associativity).
Notation "m ;;; k" := (bind m (fun _ => k))
  (at level 61, right associativity).

(** ** The classifiers and formatters of [chatbot.js] *)

Definition lits (ws : list string) : regex := RAlts (map RLit ws).

Definition greetingPatterns : list pattern :=
  [ Pattern true true
      (RGroup 1 (lits ["hi"; "hello"; "hey"; "greetings"; "good morning";
                       "good afternoon"; "good evening"; "good day"]));
    Pattern true true
      (RGroup 1 (lits ["hi there"; "hello there"; "hey there"])) ].

Definition ticketKeywords : list (string * list string) :=
  [ ("OTR Request", ["otr"; "transcript"; "official transcript"; "records"; "tor"]);
    ("Subject Enrollment", ["enroll"; "enrollment"; "add subject"; "register subject";
                            "drop subject"; "withdraw subject"]);
    ("Grade Inquiry", ["grade"; "grades"; "check grade"; "view grade";
                       "question about grade"]);
    ("Document Request", ["document"; "certificate"; "diploma"; "coe";
                          "certificate of enrollment"]);
    ("Enrollment", ["enrollment"; "enroll"; "change course"; "shift course"]);
    ("Scholarship", ["scholarship"; "financial aid"; "grant"]);
    ("Financial Aid", ["financial aid"; "assistance"; "help with payment"]);
    ("Tuition Payment", ["tuition"; "payment"; "pay"; "fee"]);
    ("Academic Complaint", ["complaint"; "grievance"; "issue"; "problem"]);
    ("General Inquiry", ["inquiry"; "question"; "help"; "information"]) ].

Definition detectGreeting (message : string) : bool :=
  let lowerMessage := trim (toLowerCase message) in
  some (fun pattern => test pattern lowerMessage) greetingPatterns.

Definition greetingTail : string :=
  "! I'm the Registrar's Office AI assistant. How can I help you today? I can assist with:" ++ nl ++ nl ++ "• Requesting documents (OTR, certificates, etc.)" ++ nl ++ "• Subject enrollment" ++ nl ++ "• Grade inquiries" ++ nl ++ "• General questions" ++ nl ++ nl ++ "Just ask me anything, and I'll help you create a ticket if needed!".

Definition getGreetingResponse (env : Env) : string :=
  let greeting :=
    if hour env <? 12 then "Good morning"
    else if hour env <? 18 then "Good afternoon"
    else "Good evening" in
  greeting ++ greetingTail.

Fixpoint matchFAQ (faqs : list FAQ) (message : string) : option string :=
  let lowerMessage := toLowerCase message in
  match faqs with
  | [] => None
  | faq :: rest =>
      let keywordMatch :=
        some (fun keyword => includes lowerMessage (toLowerCase keyword))
             (keywords faq) in
      let questionWords := splitWhitespace (toLowerCase (question faq)) in
      let questionMatch :=
        some (fun word => includes lowerMessage word)
             (filter (fun word => 3 <? String.length word) questionWords) in
      if keywordMatch || questionMatch then Some (answer faq)
      else matchFAQ rest message
  end.

Definition locationKeywords : list string :=
  ["where"; "location"; "find"; "get"; "obtain"; "available"; "can i get";
   "how to get"].

Definition serviceMatch (lowerMessage : string) (dept : Department) : bool :=
  match services dept with
  | None => false
  | Some svcs =>
      some (fun service => includes lowerMessage (toLowerCase service)) svcs
  end.

Fixpoint firstDepartment (lowerMessage : string) (depts : list Department)
  : option Department :=
  match depts with
  | [] => None
  | dept :: rest =>
      if serviceMatch lowerMessage dept then Some dept
      else firstDepartment lowerMessage rest
  end.

Definition findDepartmentByService (depts : list Department) (message : string)
  : option Department :=
  match depts with
  | [] => None
  | _ =>
      let lowerMessage := toLowerCase message in
      let isLocationInquiry :=
        some (fun keyword => includes lowerMessage keyword) locationKeywords in
      if negb isLocationInquiry then None
      else firstDepartment lowerMessage depts
  end.

Definition optTruthy (o : option string) : bool :=
  match o with Some s => truthy s | None => false end.

Definition optText (o : option string) : string :=
  match o with Some s => s | None => EmptyString end.

Definition formatDepartmentInfo (department : Department) : string :=
  let response := "You can find that at the **" ++ name department ++ ("**." ++ nl ++ nl) in
  let response := response ++ "📍 **Location:** " ++ location department ++ nl in
  let response := response ++ "🕐 **Hours:** " ++ hours department ++ nl in
  let response :=
    if optTruthy (contact department)
    then response ++ "📧 **Email:** " ++ optText (contact department) ++ nl
    else response in
  let response :=
    if optTruthy (phone department)
    then response ++ "📞 **Phone:** " ++ optText (phone department) ++ nl
    else response in
  response ++ (nl ++ "Would you like me to create a ticket for this inquiry, or do you need more information?").

Fixpoint firstCategory (entries : list (string * list string))
    (lowerMessage : string) : option string :=
  match entries with
  | [] => None
  | (category, kws) :: rest =>
      let matchCount :=
        List.length
          (filter (fun keyword => includes lowerMessage (toLowerCase keyword)) kws) in
      if 0 <? matchCount then Some category
      else firstCategory rest lowerMessage
  end.

Definition detectTicketCategory (message : string) : string :=
  let lowerMessage := toLowerCase message in
  match firstCategory ticketKeywords lowerMessage with
  | Some category => category
  | None => "General Inquiry"
  end.

(** [/(\d+)\s*(copy|copies)/i] *)
Definition copiesPattern : pattern :=
  Pattern false true
    (RSeq (RGroup 1 (RPlus true (RClass isDigit)))
       (RSeq (RStar true (RClass isSpace))
          (RGroup 2 (lits ["copy"; "copies"])))).

Definition colonOrSpace (c : ascii) : bool := (code c =? 58) || isSpace c.
Definition dot : ascii := ascii_of_nat 46.
Definition dash : ascii := ascii_of_nat 45.
Definition hash : ascii := ascii_of_nat 35.

(** [/purpose[:\s]+(.+?)(?:\.|$)/i] *)
Definition purposePattern : pattern :=
  Pattern false true
    (RSeq (RLit "purpose")
       (RSeq (RPlus true (RClass colonOrSpace))
          (RSeq (RGroup 1 (RPlus false RAny))
             (RAlt (RChar dot) REnd)))).

Definition upperOrDigit (c : ascii) : bool := isUpper c || isDigit c.

(** [/(?:subject\s+code|code)[:\s]+([A-Z0-9]+)/i] *)
Definition subjectCodePattern : pattern :=
  Pattern false true
    (RSeq (RAlt (RSeq (RLit "subject")
                   (RSeq (RPlus true (RClass isSpace)) (RLit "code")))
                (RLit "code"))
       (RSeq (RPlus true (RClass colonOrSpace))
          (RGroup 1 (RPlus true (RClass upperOrDigit))))).

Definition letterOrSpace (c : ascii) : bool := isUpper c || isLower c || isSpace c.

(** [/(?:subject|course)[:\s]+([A-Za-z\s]+?)(?:\.|$)/i] *)
Definition subjectNamePattern : pattern :=
  Pattern false true
    (RSeq (lits ["subject"; "course"])
       (RSeq (RPlus true (RClass colonOrSpace))
          (RSeq (RGroup 1 (RPlus false (RClass letterOrSpace)))
             (RAlt (RChar dot) REnd)))).

Definition extractTicketInfo (message category : string) : TicketInfo :=
  let lowerMessage := toLowerCase message in
  let priority :=
    if includes lowerMessage "urgent" || includes lowerMessage "asap"
       || includes lowerMessage "immediately"
    then "Urgent"
    else if includes lowerMessage "important" || includes lowerMessage "soon"
    then "High"
    else "Normal" in
  let details := emptyDetails in
  let details :=
    if String.eqb category "OTR Request" then
      let details :=
        match exec copiesPattern message with
        | Some copiesMatch =>
            mkRequestDetails (Some (parseInt (group 1 copiesMatch)))
              (purpose details) (subjectCode details) (subjectName details)
        | None => details
        end in
      match exec purposePattern message with
      | Some purposeMatch =>
          mkRequestDetails (numberOfCopies details)
            (Some (trim (group 1 purposeMatch)))
            (subjectCode details) (subjectName details)
      | None => details
      end
    else details in
  let details :=
    if String.eqb category "Subject Enrollment" then
      let details :=
        match exec subjectCodePattern message with
        | Some subjectCodeMatch =>
            mkRequestDetails (numberOfCopies details) (purpose details)
              (Some (toUpperCase (group 1 subjectCodeMatch)))
              (subjectName details)
        | None => details
        end in
      match exec subjectNamePattern message with
      | Some subjectNameMatch =>
          mkRequestDetails (numberOfCopies details) (purpose details)
            (subjectCode details)
            (Some (trim (group 1 subjectNameMatch)))
      | None => details
      end
    else details in
  {| info_title := take 100 message;
     info_description := message;
     info_category := category;
     info_priority := priority;
     info_requestDetails := details |}.

Fixpoint departmentLines (depts : list Department) : string :=
  match depts with
  | [] => EmptyString
  | dept :: rest =>
      match services dept with
      | Some svcs =>
          "- " ++ name dept ++ ": " ++ location dept ++ ". Services: "
          ++ join ", " svcs ++ ". Hours: " ++ hours dept ++ "." ++ nl
      | None => EmptyString
      end ++ departmentLines rest
  end.

Definition buildDepartmentContext (depts : list Department) : string :=
  match depts with
  | [] => EmptyString
  | _ => nl ++ nl ++ "Available Departments and Services:" ++ nl
         ++ departmentLines depts
  end.

Definition noKeyReply : string :=
  "I'm here to help with registrar-related inquiries. Could you please provide more details about your question? You can also create a ticket for assistance.".

Definition gptErrorReply : string :=
  "I'm having trouble processing that right now. Please try rephrasing your question or create a ticket for assistance.".

Definition systemPrompt (depts : list Department) : string :=
  "You are a helpful AI assistant for a university registrar's office. Help students with questions about enrollment, transcripts, grades, and other university services. Be friendly, professional, and concise. If a student needs to create a ticket, guide them on how to do so." ++ buildDepartmentContext depts ++ (nl ++ nl ++ "When students ask about where to find services or departments, provide specific location information from the department list above.").

(** The completion call; a missing key or a failed call gives a canned reply. *)
Definition getGPTResponse (env : Env) (depts : list Department)
    (message : string) : string :=
  match openaiApiKey env with
  | None => noKeyReply
  | Some key =>
      if negb (truthy key) then noKeyReply
      else
        match completion env (systemPrompt depts) message with
        | Some content => trim content
        | None => gptErrorReply
        end
  end.

Definition statusKeywords : list string :=
  ["ticket status"; "check ticket"; "my tickets"; "ticket status";
   "status of"; "ticket number"; "view ticket"; "show ticket";
   "what is my ticket"; "where is my ticket"; "ticket update";
   "ticket progress"; "ticket information"; "my ticket info"].

Definition detectTicketStatusInquiry (message : string) : bool :=
  let lowerMessage := toLowerCase message in
  some (fun keyword => includes lowerMessage keyword) statusKeywords.

Definition ticketChar (c : ascii) : bool :=
  isDigit c || isUpper c || Ascii.eqb c dash.

(** [/TICKET-[\dA-Z-]+/i] *)
Definition ticketPattern : pattern :=
  Pattern false true
    (RSeq (RLit "TICKET-") (RPlus true (RClass ticketChar))).

(** [/(?:ticket|#)\s*([A-Z0-9-]+)/i] *)
Definition numberPattern : pattern :=
  Pattern false true
    (RSeq (RAlt (RLit "ticket") (RChar hash))
       (RSeq (RStar true (RClass isSpace))
          (RGroup 1 (RPlus true (RClass ticketChar))))).

Definition extractTicketNumber (message : string) : option string :=
  match exec ticketPattern message with
  | Some m => Some (toUpperCase (group 0 m))
  | None =>
      match exec numberPattern message with
      | Some numberMatch => Some (toUpperCase (group 1 numberMatch))
      | None => None
      end
  end.

(** ** Ticket status *)

Definition statusEmoji : list (string * string) :=
  [ ("Pending", "⏳");
    ("In Review", "👀");
    ("Approved", "✅");
    ("Rejected", "❌");
    ("Completed", "✔️");
    ("Cancelled", "🚫");
    ("On Hold", "⏸️") ].

Definition priorityEmoji : list (string * string) :=
  [ ("Low", "🟢");
    ("Normal", "🟡");
    ("High", "🟠");
    ("Urgent", "🔴") ].

Fixpoint lookup (key : string) (table : list (string * string)) : option string :=
  match table with
  | [] => None
  | (k, v) :: rest => if String.eqb k key then Some v else lookup key rest
  end.

Definition lookupOr (key : string) (table : list (string * string))
    (default : string) : string :=
  match lookup key table with Some v => v | None => default end.

Definition noTicketsText : string :=
  "I couldn't find any tickets in your account. Would you like to create a new ticket?".

Definition truncationNote : string :=
  nl ++ "(Showing most recent 10 tickets. View all tickets in the Tickets section.)".

Definition followUpPrompt : string :=
  nl ++ "Would you like to know more about a specific ticket? Just mention the ticket number!".

(** [ticket.assignedTo.firstName] and [ticket.assignedTo.username] as
    [formatTicketStatus] reads them. Its tickets come from [getUserTickets],
    whose query resolves the creator only: the assignee is still a bare
    reference, which has neither property. *)
Definition firstNameOf (assignee : UserId) : option string := None.
Definition usernameOf (assignee : UserId) : option string := None.

(** A value inside a template literal; a missing one prints as
    [undefined]. *)
Definition shownValue (v : option string) : string :=
  match v with
  | Some s => s
  | None => "undefined"
  end.

Definition ticketDetail (env : Env) (ticket : Ticket) : string :=
  let emoji := lookupOr (status ticket) statusEmoji "📋" in
  let priorityIcon := lookupOr (priority ticket) priorityEmoji "🟡" in
  let createdDate := longDate env (createdAt ticket) in
  let response := ("Here's the status of your ticket:" ++ nl ++ nl) in
  let response := response ++ emoji ++ " **Ticket #" ++ ticketNumber ticket ++ ("**" ++ nl) in
  let response := response ++ "📝 Title: " ++ title ticket ++ nl in
  let response := response ++ "📊 Status: " ++ status ticket ++ nl in
  let response := response ++ priorityIcon ++ " Priority: " ++ priority ticket ++ nl in
  let response := response ++ "📁 Category: " ++ category ticket ++ nl in
  let response := response ++ "📅 Created: " ++ createdDate ++ nl in
  let response :=
    match assignedTo ticket with
    | Some assignee =>
        response ++ "👤 Assigned to: "
        ++ shownValue (if optTruthy (firstNameOf assignee)
                       then firstNameOf assignee
                       else usernameOf assignee) ++ nl
    | None => response
    end in
  let rejection :=
    match resolution ticket with Some r => rejectionReason r | None => None end in
  let response :=
    if String.eqb (status ticket) "Rejected" && optTruthy rejection
    then response ++ (nl ++ "❌ Rejection Reason: ") ++ optText rejection ++ nl
    else response in
  let notes :=
    match resolution ticket with Some r => resolutionNotes r | None => None end in
  let response :=
    if String.eqb (status ticket) "Completed" && optTruthy notes
    then response ++ (nl ++ "✅ Resolution: ") ++ optText notes ++ nl
    else response in
  response ++ (nl ++ "You can view full details in the Tickets section.").

(** One entry of the numbered list; [index] counts from 0. *)
Definition ticketLine (env : Env) (index : nat) (ticket : Ticket) : string :=
  let emoji := lookupOr (status ticket) statusEmoji "📋" in
  let createdDate := shortDate env (createdAt ticket) in
  natToString (index + 1) ++ ". " ++ emoji ++ " **#" ++ ticketNumber ticket
  ++ "** - " ++ title ticket ++ nl
  ++ "   Status: " ++ status ticket ++ " | Priority: " ++ priority ticket ++ " | "
  ++ createdDate ++ (nl ++ nl).

Fixpoint ticketLines (env : Env) (index : nat) (tickets : list Ticket) : string :=
  match tickets with
  | [] => EmptyString
  | ticket :: rest =>
      ticketLine env index ticket ++ ticketLines env (S index) rest
  end.

Definition listHeader (n : nat) : string :=
  "I found " ++ natToString n ++ " ticket" ++ (if 1 <? n then "s" else EmptyString)
  ++ (" in your account:" ++ nl ++ nl).

Definition formatTicketStatus (env : Env) (tickets : list Ticket)
    (isSpecificTicket : bool) : string :=
  match tickets with
  | [] => noTicketsText
  | ticket :: others =>
      if isSpecificTicket && (List.length tickets =? 1)
      then ticketDetail env ticket
      else
        let response := listHeader (List.length tickets) in
        let response := response ++ ticketLines env 0 tickets in
        let response :=
          if 10 <=? List.length tickets then response ++ truncationNote
          else response in
        response ++ followUpPrompt
  end.

(** ** The ticket store *)

Definition isCreatedBy (userId : UserId) (t : Ticket) : bool :=
  createdBy t =? userId.

(** The query [{ createdBy, ticketNumber? }]. *)
Definition matchesQuery (userId : UserId) (number : option string)
    (t : Ticket) : bool :=
  isCreatedBy userId t &&
  match number with
  | Some n => String.eqb (ticketNumber t) n
  | None => true
  end.

Fixpoint insertNewest (t : Ticket) (ts : list Ticket) : list Ticket :=
  match ts with
  | [] => [t]
  | u :: rest =>
      if createdAt u <=? createdAt t then t :: ts
      else u :: insertNewest t rest
  end.

(** [.sort({ createdAt: -1 })]: newest first; tickets created at the same
    time keep their order of insertion. *)
Definition sortNewestFirst (ts : list Ticket) : list Ticket :=
  fold_right insertNewest [] ts.

(** The meaning of [Ticket.find(query).sort({ createdAt: -1 }).limit(10)] on
    the stored tickets: those that satisfy the query, newest first, the
    first ten. *)
Definition findTickets (userId : UserId) (number : option string)
    (store : list Ticket) : list Ticket :=
  firstn 10 (sortNewestFirst (filter (matchesQuery userId number) store)).

Section Router.

Variable env : Env.

(** [Ticket.find(query).populate('createdBy', ...)]: the tickets come back
    with their creator resolved and their assignee as stored. *)
Definition find (userId : UserId) (number : option string) : M (list Ticket) :=
  fun w =>
    match findOutcome env with
    | Some e => (Throw e, w)
    | None => (Ok (findTickets userId number (ticketStore w)), w)
    end.

(** [new Ticket(ticketData)] followed by [ticket.save()]. *)
Definition save (d : TicketData) : M Ticket :=
  fun w =>
    match saveOutcome env d (ticketStore w) with
    | inl e => (Throw e, w)
    | inr g =>
        let t := newTicket g d in
        (Ok t, mkWorld (faqData w) (departmentData w) (ticketStore w ++ [t])%list)
    end.

Definition populate (t : Ticket) : M Ticket :=
  fun w =>
    match populateOutcome env with
    | Some e => (Throw e, w)
    | None => (Ok t, w)
    end.

Definition getUserTickets (userId : UserId) (number : option string)
  : M (list Ticket) :=
  tryCatch
    (let number := if optTruthy number then number else None in
     find userId number)
    (fun error => throw error).

(** The object built at the head of [createTicket], after the two length
    repairs. *)
Definition ticketDataOf (ticketInfo : TicketInfo) (userId : UserId) : TicketData :=
  let title := take 200 (orElse (info_title ticketInfo) "Chatbot Request") in
  let description :=
    take 5000 (orElse (orElse (info_description ticketInfo) (info_title ticketInfo))
                 "Request created via chatbot") in
  let title :=
    if String.length title <? 5 then "Request from chatbot: " ++ title
    else title in
  let description :=
    if String.length description <? 10
    then description ++ " (Created via chatbot)"
    else description in
  {| data_title := title;
     data_description := description;
     data_category := orElse (info_category ticketInfo) "General Inquiry";
     data_priority := orElse (info_priority ticketInfo) "Normal";
     data_createdBy := userId;
     data_status := "Pending";
     data_requestDetails := info_requestDetails ticketInfo |}.

Definition createTicket (ticketInfo : TicketInfo) (userId : UserId) : M Ticket :=
  tryCatch
    (let ticketData := ticketDataOf ticketInfo userId in
     ticket <- save ticketData ;;
     ticket <- populate ticket ;;
     ret ticket)
    (fun error => throw error).

(** ** The handler of [POST /message] *)

Definition initialResponse : Response :=
  mkResponse EmptyString None None None None.

Definition createdText (ticket : Ticket) : string :=
  "Great! I've created a ticket (#" ++ ticketNumber ticket ++ (") for your request: " ++ quote) ++ title ticket ++ (quote ++ "." ++ nl ++ nl ++ "Our staff will review it and respond within 1-2 business days. You can track your ticket status in the Tickets section." ++ nl ++ nl ++ "Is there anything else I can help you with?").

Definition creationFailedText : string :=
  "I'm having trouble creating the ticket right now. Please try creating a ticket manually through the Tickets section, or let me know if you'd like to try again.".

Definition departmentOffer : string :=
  nl ++ nl ++ "Would you like me to create a ticket for this? Just reply " ++ quote ++ "yes" ++ quote ++ " or " ++ quote ++ "create ticket" ++ quote ++ " and I'll set it up for you.".

Definition faqOffer : string :=
  nl ++ nl ++ "Would you like me to create a ticket for this request? Just reply " ++ quote ++ "yes" ++ quote ++ " or " ++ quote ++ "create ticket" ++ quote ++ " and I'll set it up for you.".

Definition ticketNotFoundText (number : string) : string :=
  "I couldn't find a ticket with number #" ++ number ++ " in your account. Please check the ticket number and try again, or ask me to show all your tickets.".

Definition retrievalFailedText : string :=
  "I'm having trouble retrieving your ticket information right now. Please try again or check your tickets in the Tickets section.".

Definition needsTicketText : string :=
  "I understand you need help with that. I can create a ticket for your request so our staff can assist you." ++ nl ++ nl ++ "Would you like me to create a ticket? Just reply " ++ quote ++ "yes" ++ quote ++ " or " ++ quote ++ "create ticket" ++ quote ++ " and I'll set it up for you.".

Definition isTicketConfirmation (lowerMessage : string) : bool :=
  String.eqb lowerMessage "yes" ||
  String.eqb lowerMessage "y" ||
  String.eqb lowerMessage "create ticket" ||
  String.eqb lowerMessage "create" ||
  includes lowerMessage "yes, create" ||
  includes lowerMessage "yes create" ||
  String.eqb lowerMessage "ok" ||
  String.eqb lowerMessage "okay" ||
  String.eqb lowerMessage "sure".

(** The original message of a context, when the context is there and the
    message is not empty. *)
Definition contextMessage (ctx : option ConversationContext) : option string :=
  match ctx with
  | Some c => if optTruthy (originalMessage c) then originalMessage c else None
  | None => None
  end.

Definition contextCategory (ctx : option ConversationContext) : string :=
  match ctx with
  | Some c => optText (ctx_category c)
  | None => EmptyString
  end.

Definition ticketRef (ticket : Ticket) : TicketRef :=
  mkTicketRef (_id ticket) (ticketNumber ticket) (title ticket).

Definition ticketSummary (t : Ticket) : TicketSummary :=
  mkTicketSummary (_id t) (ticketNumber t) (title t) (status t) (priority t)
    (category t).

(** The [try { createTicket ... } catch { ... }] block shared by the two
    confirmation branches. *)
Definition tryCreate (ticketInfo : TicketInfo) (userId : UserId)
    (response : Response) : M Response :=
  tryCatch
    (ticket <- createTicket ticketInfo userId ;;
     ret (setTicket (ticketRef ticket)
            (setAction ticket_created
               (setText (createdText ticket) response))))
    (fun error => ret (setText creationFailedText response)).

Definition departmentIndicators : list string :=
  ["request"; "need"; "want"; "apply"; "create"; "submit"; "help with"; "inquiry"].

Definition faqIndicators : list string :=
  ["request"; "need"; "want"; "apply"; "create"; "submit"; "help with"].

Definition ticketIndicators : list string :=
  ["request"; "need"; "want"; "apply"; "create"; "submit";
   "help with"; "assistance"; "issue"; "problem"].

Definition offerContext (message : string) : ConversationContext :=
  mkContext (Some message) (Some (detectTicketCategory message)).

Definition statusBranch (message : string) (userId : UserId)
    (response : Response) : M Response :=
  tryCatch
    (let number := extractTicketNumber message in
     tickets <- getUserTickets userId number ;;
     if List.length tickets =? 0
     then
       if optTruthy number
       then ret (setText (ticketNotFoundText (optText number)) response)
       else ret (setText noTicketsText response)
     else
       ret (setTickets (map ticketSummary tickets)
              (setAction ticket_status
                 (setText (formatTicketStatus env tickets (optTruthy number))
                    response))))
    (fun error => ret (setText retrievalFailedText response)).

Definition route (req : Request) : M HttpResponse :=
  let message := req_message req in
  let userId := req_user req in
  let response := initialResponse in
  (* 1. greeting *)
  if detectGreeting message
  then ret (json (Success (setText (getGreetingResponse env) response)))
  else
  (* 2. confirmation of a ticket offer *)
  let lowerMessage := trim (toLowerCase message) in
  let confirmation := isTicketConfirmation lowerMessage in
  let ctx := req_context req in
  match (if confirmation then contextMessage ctx else None) with
  | Some original =>
      let category :=
        orElse (orElse (contextCategory ctx) (detectTicketCategory original))
          "General Inquiry" in
      let ticketInfo := extractTicketInfo original category in
      response <- tryCreate ticketInfo userId response ;;
      ret (json (Success response))
  | None =>
  if confirmation
  then
    let category := orElse (detectTicketCategory message) "General Inquiry" in
    let ticketInfo := extractTicketInfo message category in
    response <- tryCreate ticketInfo userId response ;;
    ret (json (Success response))
  else
  (* 3. department or service location *)
  w <- getWorld ;;
  match findDepartmentByService (departmentData w) message with
  | Some department =>
      let response := setText (formatDepartmentInfo department) response in
      let response := setAction department_info response in
      let mightNeedTicket :=
        some (fun indicator => includes lowerMessage indicator)
             departmentIndicators in
      let response :=
        if mightNeedTicket
        then setContext (offerContext message)
               (setAction ticket_offer
                  (setText (text response ++ departmentOffer) response))
        else response in
      ret (json (Success response))
  | None =>
  (* 4. FAQ *)
  let faqAnswer := matchFAQ (faqData w) message in
  if optTruthy faqAnswer
  then
    let response := setText (optText faqAnswer) response in
    let mightNeedTicket :=
      some (fun indicator => includes lowerMessage indicator) faqIndicators in
    let response :=
      if mightNeedTicket
      then setContext (offerContext message)
             (setAction ticket_offer
                (setText (text response ++ faqOffer) response))
      else response in
    ret (json (Success response))
  else
  (* 5. ticket status *)
  if detectTicketStatusInquiry lowerMessage
  then
    response <- statusBranch message userId response ;;
    ret (json (Success response))
  else
  (* 6. a need for a ticket, offered and not created *)
  let needsTicket :=
    some (fun indicator => includes lowerMessage indicator) ticketIndicators in
  if needsTicket
  then
    ret (json (Success
                 (setContext (offerContext message)
                    (setAction ticket_offer
                       (setText needsTicketText response)))))
  else
  (* 7. completion fallback *)
  let gptResponse := getGPTResponse env (departmentData w) message in
  ret (json (Success (setText gptResponse response)))
  end
  end.

Definition errorResponse (error : Error) : HttpResponse :=
  let errorMessage :=
    if String.eqb (err_name error) "ValidationError" then "Invalid request data"
    else if truthy (err_message error) then err_message error
    else "Error processing message" in
  mkHttp 500
    (Failed errorMessage
       (if development env then Some (err_message error) else None)).

Definition handler (req : Request) : M HttpResponse :=
  tryCatch
    (match req_validationErrors req with
     | [] => route req
     | errors => ret (mkHttp 400 (ValidationFailed errors))
     end)
    (fun error => ret (errorResponse error)).

End Router.

(** ** A small world to run the router in *)

Definition registrar : Department :=
  mkDepartment "Registrar's Office" "Admin Building, Room 101" "8:00 AM - 5:00 PM"
    (Some "registrar@university.edu") None
    (Some ["COE"; "Transcript of Records"; "Diploma"]).

Definition cashier : Department :=
  mkDepartment "Cashier" "Finance Building" "9:00 AM - 4:00 PM" None
    (Some "555-0101") (Some ["Tuition Payment"; "Fees"]).

Definition gradesFaq : FAQ :=
  mkFAQ "How do I view my grades?" ["grades"; "report card"]
    "Log in to the student portal and open the Grades tab.".

Definition sampleGenerated (d : TicketData) (store : list Ticket) : Generated :=
  mkGenerated ("id" ++ natToString (List.length store))
    ("TICKET-20240101-" ++ natToString (List.length store))
    (1000 + List.length store).

Definition sampleEnv (h : nat) : Env :=
  {| hour := h;
     shortDate := fun t => "Jan " ++ natToString t;
     longDate := fun t => "Jan " ++ natToString t ++ ", 2024";
     saveOutcome := fun d store => inr (sampleGenerated d store);
     populateOutcome := None;
     findOutcome := None;
     openaiApiKey := None;
     completion := fun _ _ => None;
     development := false |}.

Definition failingEnv : Env :=
  {| hour := 9;
     shortDate := fun t => natToString t;
     longDate := fun t => natToString t;
     saveOutcome := fun _ _ => inl (mkError "MongoError" "connection lost");
     populateOutcome := None;
     findOutcome := None;
     openaiApiKey := None;
     completion := fun _ _ => None;
     development := false |}.

Definition sampleTicket (owner n : nat) : Ticket :=
  mkTicket ("id" ++ natToString n) ("TICKET-20240101-" ++ natToString n)
    ("Request number " ++ natToString n) "A request filed earlier"
    "General Inquiry" "Normal" "Pending" owner None emptyDetails None n.

Definition sampleWorld (store : list Ticket) : World :=
  mkWorld [gradesFaq] [cashier; registrar] store.

Definition twelveTickets : list Ticket :=
  map (sampleTicket 7) [3; 11; 1; 7; 12; 5; 2; 9; 4; 10; 6; 8].

Definition exampleContext : ConversationContext :=
  mkContext (Some "I need an OTR, 2 copies, purpose: job application")
    (Some "OTR Request").

(** ** Notions used to state the properties *)

Definition total (k : string -> captures -> option captures) : Prop :=
  forall s c, k s c <> None.

(** The fixed greeting prefixes of [greetingPatterns]. *)
Definition greetingPrefixes : list string :=
  ["hi"; "hello"; "hey"; "greetings"; "good morning"; "good afternoon";
   "good evening"; "good day"; "hi there"; "hello there"; "hey there"].

Definition greetingReply (env : Env) : Response :=
  mkResponse (getGreetingResponse env) None None None None.

(** The world after one call: the catalogs as they were, and the ticket
    store as it was or with one ticket added at its end. *)
Definition framed (w w' : World) : Prop :=
  faqData w' = faqData w /\
  departmentData w' = departmentData w /\
  (ticketStore w' = ticketStore w \/
   exists t, ticketStore w' = (ticketStore w ++ [t])%list).

(** The ticket content chosen by the confirmation stage: from the original
    message of the context when there is one, else from the utterance. *)
Definition confirmationInfo (req : Request) : TicketInfo :=
  match contextMessage (req_context req) with
  | Some original =>
      extractTicketInfo original
        (orElse (orElse (contextCategory (req_context req))
                   (detectTicketCategory original)) "General Inquiry")
  | None =>
      extractTicketInfo (req_message req)
        (orElse (detectTicketCategory (req_message req)) "General Inquiry")
  end.

Definition hasCue (cues : list string) (m : string) : bool :=
  some (fun indicator => includes (trim (toLowerCase m)) indicator) cues.

Definition isLocationInquiry (m : string) : bool :=
  some (fun keyword => includes (toLowerCase m) keyword) locationKeywords.


(** ** Further notions, for the other properties of the handler *)

(** An environment where saving works and every later storage call fails,
    with a completion key but no completion. *)
Definition populateFailingEnv : Env :=
  {| hour := 9;
     shortDate := fun t => natToString t;
     longDate := fun t => natToString t;
     saveOutcome := fun d store => inr (sampleGenerated d store);
     populateOutcome := Some (mkError "MongoError" "connection lost");
     findOutcome := Some (mkError "MongoError" "connection lost");
     openaiApiKey := Some "sk-test";
     completion := fun _ _ => None;
     development := false |}.

(** Some keyword of the list occurs in the case-folded text. *)
Definition keywordIn (lowerMessage : string) (kws : list string) : Prop :=
  exists keyword, In keyword kws
                  /\ includes lowerMessage (toLowerCase keyword) = true.

(** The ticket belongs to the user. *)
Definition ownedBy (u : UserId) (t : Ticket) : Prop := createdBy t = u.


(** *** What the matcher computes

    [matches ic r s c s' c'] says that pattern [r] can consume a prefix of
    [s], leaving [s'], and turn the captures [c] into [c']. *)

Inductive repeated (R : string -> captures -> string -> captures -> Prop)
  : string -> captures -> string -> captures -> Prop :=
| repeated_none s c : repeated R s c s c
| repeated_more s c s1 c1 s' c' :
    R s c s1 c1 -> repeated R s1 c1 s' c' -> repeated R s c s' c'.

Fixpoint matches (ic : bool) (r : regex) (s : string) (c : captures)
    (s' : string) (c' : captures) : Prop :=
  match r with
  | REps => s' = s /\ c' = c
  | RChar a => exists b, s = String b s' /\ charMatches ic a b = true /\ c' = c
  | RClass f => exists b, s = String b s' /\ classMatches ic f b = true /\ c' = c
  | RAny => exists b, s = String b s' /\ isLineTerminator b = false /\ c' = c
  | REnd => s = EmptyString /\ s' = EmptyString /\ c' = c
  | RSeq r1 r2 =>
      exists s1 c1, matches ic r1 s c s1 c1 /\ matches ic r2 s1 c1 s' c'
  | RAlt r1 r2 => matches ic r1 s c s' c' \/ matches ic r2 s c s' c'
  | RStar _ r1 => repeated (matches ic r1) s c s' c'
  | RGroup n r1 =>
      exists c1, matches ic r1 s c s' c1 /\ c' = (n, consumed s s') :: c1
  end.

(** Every character of the string satisfies the test. *)
Fixpoint allChars (p : ascii -> bool) (s : string) : bool :=
  match s with
  | EmptyString => true
  | String c s' => p c && allChars p s'
  end.

Definition notUpper (c : ascii) : bool := negb (isUpper c).

(** ** The admin routes of [backend/routes/admin.js]: ticket list and status
    update *)

Module Admin.

(** A ticket as the admin routes see it: the stored ticket and the time of
    its last update. *)
Record StoredTicket : Type := mkStored {
  st_ticket : Ticket;
  st_updatedAt : nat
}.

(** Modelled from the spec: the TicketComment model
    ([models/TicketComment.js]) is not among the sources. A comment carries
    what the route hands to its constructor; a flag that the route leaves out
    is [None]. *)
Record Comment : Type := mkComment {
  cm_ticket : string;
  cm_author : UserId;
  cm_content : string;
  cm_isInternal : option bool;
  cm_isSystemNote : option bool
}.

Record AdminWorld : Type := mkAdminWorld {
  adminTickets : list StoredTicket;
  adminComments : list Comment
}.

(** The awaited calls of the two routes, each of which may fail. *)
Inductive Step : Type :=
| CompileSearch | FindTickets | CountTickets
| FindById | SaveRemark | SaveTicket | SaveStatusNote
| PopulateCreator | PopulateAssignee.

(** What lies outside the program: the clock, the failures of the awaited
    calls, and the database's reading of a search pattern and of a sort
    order. *)
Record AdminEnv : Type := mkAdminEnv {
  adminNow : nat;
  failure : Step -> option Error;
  searchMatches : string -> Ticket -> bool;
  sortTickets : string -> bool -> list StoredTicket -> list StoredTicket;
  adminDevelopment : bool
}.

Record Pagination : Type := mkPagination {
  pg_page : nat;
  pg_limit : nat;
  pg_total : nat;
  pg_pages : nat
}.

Inductive AdminBody : Type :=
| TicketPage (tickets : list StoredTicket) (pagination : Pagination)
| StatusUpdated (ticket : StoredTicket)
| AdminInvalid (errors : list string)
| AdminNotFound
| AdminFailed (message : string) (error : option string).

Record AdminHttp : Type := mkAdminHttp {
  ah_status : nat;
  ah_body : AdminBody
}.

Definition AM (A : Type) : Type := AdminWorld -> result A * AdminWorld.

Definition aret {A} (a : A) : AM A := fun w => (Ok a, w).

Definition abind {A B} (m : AM A) (f : A -> AM B) : AM B :=
  fun w =>
    match m w with
    | (Ok a, w') => f a w'
    | (Throw e, w') => (Throw e, w')
    end.

Definition acatch {A} (m : AM A) (handler : Error -> AM A) : AM A :=
  fun w =>
    match m w with
    | (Ok a, w') => (Ok a, w')
    | (Throw e, w') => handler e w'
    end.

(** An awaited call: it fails when the environment says so, and otherwise
    does what it is there for. *)
Definition await {A} (env : AdminEnv) (step : Step) (m : AM A) : AM A :=
  fun w =>
    match failure env step with
    | Some e => (Throw e, w)
    | None => m w
    end.

Notation "x <-- m ;; k" := (abind m (fun x => k))
  (at level 61, m at next level, right associativity).

(** The query object of the list route. *)
Record TicketQuery : Type := mkQuery {
  tq_status : option string;
  tq_category : option string;
  tq_priority : option string;
  tq_search : option string
}.

Definition fieldIs (wanted : option string) (actual : string) : bool :=
  match wanted with
  | Some v => String.eqb actual v
  | None => true
  end.

Definition matchesTicketQuery (env : AdminEnv) (q : TicketQuery)
    (t : StoredTicket) : bool :=
  fieldIs (tq_status q) (status (st_ticket t))
  && fieldIs (tq_category q) (category (st_ticket t))
  && fieldIs (tq_priority q) (priority (st_ticket t))
  && match tq_search q with
     | Some pattern => searchMatches env pattern (st_ticket t)
     | None => true
     end.

(** The request of [GET /tickets] after validation: [lr_page] and [lr_limit]
    hold what [parseInt] gives for the parameter, when it is there. *)
Record ListRequest : Type := mkListRequest {
  lr_status : option string;
  lr_category : option string;
  lr_priority : option string;
  lr_search : option string;
  lr_page : option nat;
  lr_limit : option nat;
  lr_sortBy : option string;
  lr_sortOrder : option string;
  lr_errors : list string
}.

Definition orDefault {A} (o : option A) (d : A) : A :=
  match o with Some a => a | None => d end.

Definition keepTruthy (o : option string) : option string :=
  if optTruthy o then o else None.

(** [Math.ceil(total / limit)], for a positive limit. *)
Definition ceilDiv (total limit : nat) : nat :=
  if total mod limit =? 0 then total / limit else S (total / limit).

(** The query object built from the parameters of the request. *)
Definition queryOf (req : ListRequest) : TicketQuery :=
  mkQuery (keepTruthy (lr_status req)) (keepTruthy (lr_category req))
    (keepTruthy (lr_priority req))
    match lr_search req with
    | Some s => if truthy s && truthy (trim s) then Some (trim s) else None
    | None => None
    end.

(** Building the query compiles the search pattern, when there is one. *)
Definition buildQuery (env : AdminEnv) (req : ListRequest) : AM TicketQuery :=
  match tq_search (queryOf req) with
  | Some _ => await env CompileSearch (aret (queryOf req))
  | None => aret (queryOf req)
  end.

(** [Ticket.find(query)...sort(sort).skip(skip).limit(limit)] *)
Definition findPage (env : AdminEnv) (q : TicketQuery) (sortBy : string)
    (ascending : bool) (skip limit : nat) : AM (list StoredTicket) :=
  await env FindTickets
    (fun w =>
       (Ok (firstn limit
              (skipn skip
                 (sortTickets env sortBy ascending
                    (filter (matchesTicketQuery env q) (adminTickets w))))), w)).

(** [Ticket.countDocuments(query)] *)
Definition countTickets (env : AdminEnv) (q : TicketQuery) : AM nat :=
  await env CountTickets
    (fun w =>
       (Ok (List.length (filter (matchesTicketQuery env q) (adminTickets w))), w)).

Definition failed (env : AdminEnv) (fallback : string) (error : Error) : AdminHttp :=
  mkAdminHttp 500
    (AdminFailed (orElse (err_message error) fallback)
       (if adminDevelopment env then Some (err_message error) else None)).

(** [GET /api/admin/tickets] *)
Definition listTickets (env : AdminEnv) (req : ListRequest) : AM AdminHttp :=
  acatch
    (match lr_errors req with
     | _ :: _ => aret (mkAdminHttp 400 (AdminInvalid (lr_errors req)))
     | [] =>
         let page := orDefault (lr_page req) 1 in
         let limit := orDefault (lr_limit req) 10 in
         let sortBy := orDefault (lr_sortBy req) "createdAt" in
         let sortOrder := orDefault (lr_sortOrder req) "desc" in
         query <-- buildQuery env req ;;
         let skip := (page - 1) * limit in
         tickets <-- findPage env query sortBy (String.eqb sortOrder "asc")
                       skip limit ;;
         total <-- countTickets env query ;;
         aret (mkAdminHttp 200
                 (TicketPage tickets
                    (mkPagination page limit total (ceilDiv total limit))))
     end)
    (fun error => aret (failed env "Error fetching tickets" error)).

(** The request of [PUT /tickets/:id/status] after validation. *)
Record StatusRequest : Type := mkStatusRequest {
  sr_id : string;
  sr_status : string;
  sr_remarks : option string;
  sr_admin : UserId;
  sr_errors : list string
}.

Fixpoint lookupTicket (id : string) (ts : list StoredTicket) : option StoredTicket :=
  match ts with
  | [] => None
  | t :: rest =>
      if String.eqb (_id (st_ticket t)) id then Some t else lookupTicket id rest
  end.

Definition findById (env : AdminEnv) (id : string) : AM (option StoredTicket) :=
  await env FindById (fun w => (Ok (lookupTicket id (adminTickets w)), w)).

Definition saveComment (env : AdminEnv) (step : Step) (c : Comment) : AM unit :=
  await env step
    (fun w => (Ok tt, mkAdminWorld (adminTickets w) (adminComments w ++ [c])%list)).

Definition withStatus (t : Ticket) (newStatus : string) : Ticket :=
  mkTicket (_id t) (ticketNumber t) (title t) (description t) (category t)
    (priority t) newStatus (createdBy t) (assignedTo t) (requestDetails t)
    (resolution t) (createdAt t).

(** [ticket.save()]: the stored document with the identifier of the ticket
    is replaced. *)
Definition saveTicket (env : AdminEnv) (t : StoredTicket) : AM unit :=
  await env SaveTicket
    (fun w =>
       (Ok tt,
        mkAdminWorld
          (map (fun old =>
                  if String.eqb (_id (st_ticket old)) (_id (st_ticket t))
                  then t else old) (adminTickets w))
          (adminComments w))).

Definition statusNote (oldStatus newStatus : string) : string :=
  "Status changed from " ++ quote ++ oldStatus ++ quote ++ " to " ++ quote
  ++ newStatus ++ quote ++ " by admin".

(** [PUT /api/admin/tickets/:id/status] *)
Definition updateStatus (env : AdminEnv) (req : StatusRequest) : AM AdminHttp :=
  acatch
    (match sr_errors req with
     | _ :: _ => aret (mkAdminHttp 400 (AdminInvalid (sr_errors req)))
     | [] =>
         found <-- findById env (sr_id req) ;;
         match found with
         | None => aret (mkAdminHttp 404 AdminNotFound)
         | Some ticket =>
             let oldStatus := status (st_ticket ticket) in
             let ticket :=
               mkStored (withStatus (st_ticket ticket) (sr_status req))
                 (adminNow env) in
             _ <-- (match sr_remarks req with
                    | Some remarks =>
                        if truthy remarks && truthy (trim remarks)
                        then saveComment env SaveRemark
                               (mkComment (_id (st_ticket ticket)) (sr_admin req)
                                  (trim remarks) (Some false) None)
                        else aret tt
                    | None => aret tt
                    end) ;;
             _ <-- saveTicket env ticket ;;
             _ <-- saveComment env SaveStatusNote
                     (mkComment (_id (st_ticket ticket)) (sr_admin req)
                        (statusNote oldStatus (sr_status req)) None (Some true)) ;;
             _ <-- await env PopulateCreator (aret tt) ;;
             _ <-- await env PopulateAssignee (aret tt) ;;
             aret (mkAdminHttp 200 (StatusUpdated ticket))
         end
     end)
    (fun error => aret (failed env "Error updating ticket status" error)).

(** The same request for another page. *)
Definition atPage (req : ListRequest) (p : nat) : ListRequest :=
  mkListRequest (lr_status req) (lr_category req) (lr_priority req)
    (lr_search req) (Some p) (lr_limit req) (lr_sortBy req) (lr_sortOrder req)
    (lr_errors req).

(** All the tickets that the request selects, in the order it asks for. *)
Definition selected (env : AdminEnv) (req : ListRequest) (w : AdminWorld)
  : list StoredTicket :=
  sortTickets env (orDefault (lr_sortBy req) "createdAt")
    (String.eqb (orDefault (lr_sortOrder req) "desc") "asc")
    (filter (matchesTicketQuery env (queryOf req)) (adminTickets w)).

(** The tickets of page [p], [limit] to a page. *)
Definition pageOf (limit p : nat) (all : list StoredTicket) : list StoredTicket :=
  firstn limit (skipn ((p - 1) * limit) all).

(** The stored tickets after the ticket [t] was saved. *)
Definition replaced (t : StoredTicket) (ts : list StoredTicket) : list StoredTicket :=
  map (fun old =>
         if String.eqb (_id (st_ticket old)) (_id (st_ticket t)) then t else old) ts.

(** The ticket of the request with its new status and update time. *)
Definition updated (env : AdminEnv) (req : StatusRequest) (old : StoredTicket)
  : StoredTicket :=
  mkStored (withStatus (st_ticket old) (sr_status req)) (adminNow env).

(** The comment made of the remarks of the request, when they are not blank. *)
Definition remarkOf (req : StatusRequest) : list Comment :=
  match sr_remarks req with
  | Some remarks =>
      if truthy remarks && truthy (trim remarks)
      then [mkComment (sr_id req) (sr_admin req) (trim remarks) (Some false) None]
      else []
  | None => []
  end.

Definition noteOf (req : StatusRequest) (old : StoredTicket) : Comment :=
  mkComment (sr_id req) (sr_admin req)
    (statusNote (status (st_ticket old)) (sr_status req)) None (Some true).

(** A small store to run the admin routes on. *)
Definition quietEnv : AdminEnv :=
  mkAdminEnv 5000 (fun _ => None)
    (fun pattern t => includes (toLowerCase (title t)) (toLowerCase pattern))
    (fun _ _ l => l) false.

(** The same, with the save of the ticket failing. *)
Definition saveFailingEnv : AdminEnv :=
  mkAdminEnv 5000
    (fun step => match step with
                 | SaveTicket => Some (mkError "MongoError" "write failed")
                 | _ => None
                 end)
    (fun pattern t => includes (toLowerCase (title t)) (toLowerCase pattern))
    (fun _ _ l => l) false.

Definition sampleStore : AdminWorld :=
  mkAdminWorld (map (fun t => mkStored t (createdAt t)) twelveTickets) [].

Definition sampleList : ListRequest :=
  mkListRequest (Some "Pending") None None None None (Some 5) None None [].

Definition sampleUpdate : StatusRequest :=
  mkStatusRequest "id7" "In Review" (Some "  Please bring your ID  ") 1 [].

End Admin.

(** ** Notions of the claims about texts and catalogs *)

(** The text [sub] occurs in [s]. *)
Definition containsText (s sub : string) : Prop :=
  exists before after, s = before ++ sub ++ after.

(** Text of the ASCII range, where a character of the model is a UTF-16 unit
    of the code. *)
Definition isAscii (s : string) : bool := allChars (fun c => code c <? 128) s.



(** An environment whose store checks the category of a ticket, as the schema
    of the Ticket model does, and refuses a ticket of an unknown one. *)
Definition validatingEnv : Env :=
  {| hour := 9;
     shortDate := fun t => natToString t;
     longDate := fun t => natToString t;
     saveOutcome := fun d store =>
       if existsb (String.eqb (data_category d)) (map fst ticketKeywords)
       then inr (sampleGenerated d store)
       else inl (mkError "ValidationError" "category is not a valid enum value");
     populateOutcome := None;
     findOutcome := None;
     openaiApiKey := None;
     completion := fun _ _ => None;
     development := false |}.



(** The texts of the request are of the ASCII range: the utterance and the
    original message of the context, when there is one. *)
Definition asciiRequest (req : Request) : bool :=
  isAscii (req_message req)
  && match req_context req with
     | Some c => isAscii (optText (originalMessage c))
     | None => true
     end.

(** An environment whose completion service answers with the given reply. *)
Definition answeringEnv (reply : string) : Env :=
  {| hour := 9;
     shortDate := fun t => natToString t;
     longDate := fun t => natToString t;
     saveOutcome := fun d store => inr (sampleGenerated d store);
     populateOutcome := None;
     findOutcome := None;
     openaiApiKey := Some "sk-test";
     completion := fun _ _ => Some reply;
     development := false |}.

(** ** Facts about the matcher *)

Lemma startsWith_cons (a b : ascii) (s p : string) :
  startsWith (String b s) (String a p) = true -> a = b /\ startsWith s p = true.
Proof.
  simpl. intros H. apply andb_true_iff in H. destruct H as [Hab Hrest].
  apply Ascii.eqb_eq in Hab. auto.
Qed.

Lemma charMatches_refl (ic : bool) (a : ascii) : charMatches ic a a = true.
Proof.
  unfold charMatches. destruct ic; apply Ascii.eqb_refl.
Qed.

(** A literal that is a prefix of the input matches, whatever follows. *)
Lemma matchRe_literal (ic : bool) (p : string) :
  forall s c k, startsWith s p = true -> total k ->
                matchRe ic (RLit p) s c k <> None.
Proof.
  induction p as [|a p IH]; intros s c k Hpre Hk.
  - simpl. apply Hk.
  - destruct s as [|b s]; [discriminate|].
    apply startsWith_cons in Hpre. destruct Hpre as [-> Hpre].
    simpl. rewrite charMatches_refl. apply IH; assumption.
Qed.

Lemma matchRe_alternatives (ic : bool) (ws : list string) (p : string) :
  forall s c k, In p ws -> startsWith s p = true -> total k ->
                matchRe ic (lits ws) s c k <> None.
Proof.
  unfold lits.
  induction ws as [|w ws IH]; intros s c k Hin Hpre Hk; [contradiction|].
  destruct ws as [|w' ws].
  - destruct Hin as [->|[]]. simpl. apply matchRe_literal; assumption.
  - change (RAlts (map RLit (w :: w' :: ws)))
      with (RAlt (RLit w) (RAlts (map RLit (w' :: ws)))).
    simpl matchRe.
    destruct (matchRe ic (RLit w) s c k) eqn:Hfirst; [discriminate|].
    destruct Hin as [->|Hin].
    + exfalso. exact (matchRe_literal ic p s c k Hpre Hk Hfirst).
    + apply IH; assumption.
Qed.

Lemma test_anchored_alternatives (ws : list string) (p s : string) :
  In p ws -> startsWith s p = true ->
  test (Pattern true true (RGroup 1 (lits ws))) s = true.
Proof.
  intros Hin Hpre. unfold test, exec, matchHere. simpl anchored. simpl ignoreCase.
  simpl body. cbv iota.
  match goal with
  | |- match ?e with _ => _ end = true => destruct e eqn:Hm; [reflexivity|]
  end.
  exfalso. simpl matchRe in Hm.
  refine (matchRe_alternatives true ws p _ _ _ Hin Hpre _ Hm).
  intros s' c'. discriminate.
Qed.

Lemma detectGreeting_prefix (m p : string) :
  In p greetingPrefixes ->
  startsWith (trim (toLowerCase m)) p = true ->
  detectGreeting m = true.
Proof.
  intros Hin Hpre. unfold detectGreeting, greetingPatterns, some. simpl existsb.
  assert (Hsplit :
    In p ["hi"; "hello"; "hey"; "greetings"; "good morning"; "good afternoon";
          "good evening"; "good day"]
    \/ In p ["hi there"; "hello there"; "hey there"]).
  { unfold greetingPrefixes in Hin. simpl in Hin. simpl. tauto. }
  destruct Hsplit as [H|H].
  - rewrite (test_anchored_alternatives _ _ _ H Hpre). reflexivity.
  - rewrite (test_anchored_alternatives _ _ _ H Hpre). apply orb_true_r.
Qed.

(** ** Facts about the effects of the router *)

Lemma route_greeting env req w :
  detectGreeting (req_message req) = true ->
  route env req w = (Ok (json (Success (greetingReply env))), w).
Proof.
  intros H. unfold route. rewrite H. reflexivity.
Qed.

Lemma framed_refl w : framed w w.
Proof. unfold framed. auto. Qed.

Lemma createTicket_cases env info u w :
  match saveOutcome env (ticketDataOf info u) (ticketStore w) with
  | inl e => createTicket env info u w = (Throw e, w)
  | inr g =>
      let t := newTicket g (ticketDataOf info u) in
      let w' := mkWorld (faqData w) (departmentData w) (ticketStore w ++ [t])%list in
      match populateOutcome env with
      | Some e => createTicket env info u w = (Throw e, w')
      | None => createTicket env info u w = (Ok t, w')
      end
  end.
Proof.
  unfold createTicket, tryCatch, bind, save, populate, throw, ret.
  destruct (saveOutcome env (ticketDataOf info u) (ticketStore w)) as [e|g];
    [reflexivity|].
  cbv zeta. destruct (populateOutcome env); reflexivity.
Qed.

Lemma tryCreate_cases env info u r w :
  match saveOutcome env (ticketDataOf info u) (ticketStore w) with
  | inl e => tryCreate env info u r w = (Ok (setText creationFailedText r), w)
  | inr g =>
      let t := newTicket g (ticketDataOf info u) in
      let w' := mkWorld (faqData w) (departmentData w) (ticketStore w ++ [t])%list in
      match populateOutcome env with
      | Some e => tryCreate env info u r w = (Ok (setText creationFailedText r), w')
      | None =>
          tryCreate env info u r w =
          (Ok (setTicket (ticketRef t)
                 (setAction ticket_created (setText (createdText t) r))), w')
      end
  end.
Proof.
  pose proof (createTicket_cases env info u w) as H.
  unfold tryCreate, tryCatch, bind, ret.
  destruct (saveOutcome env (ticketDataOf info u) (ticketStore w)) as [e|g].
  - rewrite H. reflexivity.
  - cbv zeta in *. destruct (populateOutcome env); rewrite H; reflexivity.
Qed.

Lemma tryCreate_framed env info u r w :
  exists r', fst (tryCreate env info u r w) = Ok r'
             /\ framed w (snd (tryCreate env info u r w)).
Proof.
  pose proof (tryCreate_cases env info u r w) as H.
  destruct (saveOutcome env (ticketDataOf info u) (ticketStore w)) as [e|g].
  - rewrite H. eexists. split; [reflexivity|apply framed_refl].
  - cbv zeta in H. destruct (populateOutcome env); rewrite H;
      (eexists; split; [reflexivity|]); unfold framed; simpl; eauto.
Qed.

Lemma statusBranch_keeps_world env m u r w :
  exists r', statusBranch env m u r w = (Ok r', w).
Proof.
  unfold statusBranch, tryCatch, bind, getUserTickets, tryCatch, find, throw, ret.
  destruct (findOutcome env); [eauto|].
  match goal with |- context [List.length ?l =? 0] => destruct (List.length l =? 0) end.
  - destruct (optTruthy (extractTicketNumber m)); eauto.
  - eauto.
Qed.

(** Every call of the router answers, and leaves a framed world. *)
Lemma route_framed env req w :
  exists h, fst (route env req w) = Ok h /\ framed w (snd (route env req w)).
Proof.
  unfold route.
  destruct (detectGreeting (req_message req)).
  { eexists. split; [reflexivity|apply framed_refl]. }
  cbv zeta.
  destruct (isTicketConfirmation (trim (toLowerCase (req_message req)))).
  - destruct (contextMessage (req_context req)) as [orig|].
    + unfold bind.
      match goal with
      | |- context [tryCreate env ?i ?u ?r w] =>
          destruct (tryCreate_framed env i u r w) as [r' [Hr Hf]];
          destruct (tryCreate env i u r w) as [[x|e] w']; simpl in Hr;
            [|discriminate]
      end.
      eexists. split; [reflexivity|exact Hf].
    + unfold bind.
      match goal with
      | |- context [tryCreate env ?i ?u ?r w] =>
          destruct (tryCreate_framed env i u r w) as [r' [Hr Hf]];
          destruct (tryCreate env i u r w) as [[x|e] w']; simpl in Hr;
            [|discriminate]
      end.
      eexists. split; [reflexivity|exact Hf].
  - unfold bind, getWorld.
    destruct (findDepartmentByService (departmentData w) (req_message req)).
    { eexists. split; [reflexivity|apply framed_refl]. }
    destruct (optTruthy (matchFAQ (faqData w) (req_message req))).
    { eexists. split; [reflexivity|apply framed_refl]. }
    destruct (detectTicketStatusInquiry (trim (toLowerCase (req_message req)))).
    { destruct (statusBranch_keeps_world env (req_message req) (req_user req)
                  initialResponse w) as [r' Hr].
      rewrite Hr. eexists. split; [reflexivity|apply framed_refl]. }
    destruct (some _ ticketIndicators);
      eexists; (split; [reflexivity|apply framed_refl]).
Qed.

Lemma handler_valid env req w :
  req_validationErrors req = [] -> handler env req w = route env req w.
Proof.
  intros Hv. unfold handler, tryCatch. rewrite Hv.
  destruct (route_framed env req w) as [h [Hh _]].
  destruct (route env req w) as [[x|e] w']; simpl in Hh; [reflexivity|discriminate].
Qed.

Lemma route_confirmation env req w :
  detectGreeting (req_message req) = false ->
  isTicketConfirmation (trim (toLowerCase (req_message req))) = true ->
  route env req w =
  bind (tryCreate env (confirmationInfo req) (req_user req) initialResponse)
       (fun response => ret (json (Success response))) w.
Proof.
  intros Hg Hc. unfold route, confirmationInfo. rewrite Hg. cbv zeta. rewrite Hc.
  destruct (contextMessage (req_context req)); reflexivity.
Qed.

Lemma route_not_confirmation env req w :
  isTicketConfirmation (trim (toLowerCase (req_message req))) = false ->
  forall ctx,
    route env req w =
    route env (mkRequest (req_message req) ctx (req_user req)
                 (req_validationErrors req)) w.
Proof.
  intros Hc ctx. unfold route. cbn [req_message req_user req_context].
  destruct (detectGreeting (req_message req)); [reflexivity|].
  cbv zeta. rewrite Hc. reflexivity.
Qed.

(** ** The properties of the specification *)

(** C10: when the message is not a ticket confirmation, the answer of the
    handler and the world it leaves are the same for any two conversation
    contexts, supplied or absent. *)
Theorem context_read_only_by_confirmation env w m u errs ctx1 ctx2 :
  isTicketConfirmation (trim (toLowerCase m)) = false ->
  route env (mkRequest m ctx1 u errs) w = route env (mkRequest m ctx2 u errs) w
  /\ handler env (mkRequest m ctx1 u errs) w
     = handler env (mkRequest m ctx2 u errs) w.
Proof.
  intros Hc.
  assert (Hr : route env (mkRequest m ctx1 u errs) w
               = route env (mkRequest m ctx2 u errs) w).
  { exact (route_not_confirmation env (mkRequest m ctx1 u errs) w Hc ctx2). }
  split; [exact Hr|].
  unfold handler, tryCatch. cbn [req_validationErrors].
  destruct errs; [rewrite Hr|]; reflexivity.
Qed.

Lemma context_read_only_by_confirmation_witness :
  route (sampleEnv 9) (mkRequest "I need to get my COE" (Some exampleContext) 7 [])
    (sampleWorld [])
  = route (sampleEnv 9) (mkRequest "I need to get my COE" None 7 []) (sampleWorld [])
  /\ handler (sampleEnv 9)
       (mkRequest "I need to get my COE" (Some exampleContext) 7 []) (sampleWorld [])
     = handler (sampleEnv 9) (mkRequest "I need to get my COE" None 7 [])
         (sampleWorld []).
Proof.
  apply (context_read_only_by_confirmation (sampleEnv 9) (sampleWorld [])
           "I need to get my COE" 7 [] (Some exampleContext) None).
  vm_compute. reflexivity.
Defined.

(** C9: every invocation of the handler leaves the FAQ catalog and the
    department catalog as they were, and the ticket store either as it was
    or with exactly one ticket added after the existing ones, which are
    neither changed nor removed. *)
Theorem router_only_adds_one_ticket env req w :
  faqData (snd (handler env req w)) = faqData w /\
  departmentData (snd (handler env req w)) = departmentData w /\
  (ticketStore (snd (handler env req w)) = ticketStore w \/
   exists t, ticketStore (snd (handler env req w)) = (ticketStore w ++ [t])%list).
Proof.
  change (framed w (snd (handler env req w))).
  destruct (req_validationErrors req) as [|err errs] eqn:Hv.
  - rewrite (handler_valid env req w Hv).
    destruct (route_framed env req w) as [h [_ Hf]]. exact Hf.
  - unfold handler, tryCatch. rewrite Hv. apply framed_refl.
Qed.

(** *** Substrings of a concatenation *)

Lemma startsWith_app (p s : string) : startsWith (p ++ s) p = true.
Proof.
  induction p as [|a p IH]; [reflexivity|].
  simpl. rewrite Ascii.eqb_refl. exact IH.
Qed.

Lemma includes_here (p s : string) : includes (p ++ s) p = true.
Proof.
  destruct p as [|a p]; destruct s as [|b s]; simpl; try reflexivity;
    rewrite Ascii.eqb_refl, startsWith_app; reflexivity.
Qed.

Lemma includes_after (a s sub : string) :
  includes s sub = true -> includes (a ++ s) sub = true.
Proof.
  intros H. induction a as [|c a IH]; [exact H|].
  simpl. rewrite IH. apply orb_true_r.
Qed.

Lemma includes_middle (a b c : string) : includes (a ++ b ++ c) b = true.
Proof.
  apply includes_after. apply includes_here.
Qed.

Lemma startsWith_split (s p : string) :
  startsWith s p = true -> exists rest, s = p ++ rest.
Proof.
  revert s. induction p as [|a p IH]; intros s H.
  - exists s. reflexivity.
  - destruct s as [|b s]; [discriminate|].
    apply startsWith_cons in H. destruct H as [-> H].
    destruct (IH s H) as [rest ->]. exists rest. reflexivity.
Qed.

(** [includes] decides the occurrence of a text in another. *)
Lemma includes_iff (s sub : string) :
  includes s sub = true <-> containsText s sub.
Proof.
  split.
  - induction s as [|c s IH]; simpl; intros H.
    + rewrite orb_false_r in H. destruct (startsWith_split _ _ H) as [rest Hrest].
      exists EmptyString, rest. exact Hrest.
    + apply orb_true_iff in H. destruct H as [H|H].
      * destruct (startsWith_split _ _ H) as [rest Hrest].
        exists EmptyString, rest. exact Hrest.
      * destruct (IH H) as [before [after ->]].
        exists (String c before), after. reflexivity.
  - intros [before [after ->]]. apply includes_middle.
Qed.


(** C6: every utterance whose trimmed, case-folded text begins with one of
    the fixed greeting prefixes is answered at stage 1, with status 200, by
    the canned greeting of the time of day (Good morning before 12, Good
    afternoon before 18, Good evening from 18 on, followed by the list of
    what the assistant does): no action, no ticket, no context, the world
    untouched, whatever else the utterance contains; so is
    "hello, I need a transcript", which gets the greeting and no ticket
    offer. *)
Theorem greeting_is_terminal env w m ctx u errs p rest :
  In p ["hi"; "hello"; "hey"; "greetings"; "good morning"; "good afternoon";
        "good evening"; "good day"; "hi there"; "hello there"; "hey there"] ->
  trim (toLowerCase m) = p ++ rest ->
  let newline := String (ascii_of_nat 10) EmptyString in
  let greeting :=
    (if hour env <? 12 then "Good morning"
     else if hour env <? 18 then "Good afternoon" else "Good evening")
    ++ "! I'm the Registrar's Office AI assistant. How can I help you today? I can assist with:"
    ++ newline ++ newline
    ++ "• Requesting documents (OTR, certificates, etc.)" ++ newline
    ++ "• Subject enrollment" ++ newline
    ++ "• Grade inquiries" ++ newline
    ++ "• General questions" ++ newline ++ newline
    ++ "Just ask me anything, and I'll help you create a ticket if needed!" in
  route env (mkRequest m ctx u errs) w
  = (Ok (mkHttp 200 (Success (mkResponse greeting None None None None))), w)
  /\ route env (mkRequest "hello, I need a transcript" ctx u errs) w
     = (Ok (mkHttp 200 (Success (mkResponse greeting None None None None))), w).
Proof.
  intros Hin Hpre newline greeting.
  assert (Htext : getGreetingResponse env = greeting).
  { unfold getGreetingResponse, greeting.
    destruct (hour env <? 12); [vm_compute; reflexivity|].
    destruct (hour env <? 18); vm_compute; reflexivity. }
  split.
  - rewrite route_greeting.
    + unfold greetingReply, json. rewrite Htext. reflexivity.
    + cbn [req_message]. apply (detectGreeting_prefix m p Hin).
      rewrite Hpre. apply startsWith_app.
  - rewrite route_greeting.
    + unfold greetingReply, json. rewrite Htext. reflexivity.
    + vm_compute. reflexivity.
Qed.

Lemma greeting_is_terminal_witness :
  let newline := String (ascii_of_nat 10) EmptyString in
  route (sampleEnv 9) (mkRequest "  Good Morning! I want to apply for a grant"
                         None 7 []) (sampleWorld twelveTickets)
  = (Ok (mkHttp 200
           (Success
              (mkResponse
                 ("Good morning! I'm the Registrar's Office AI assistant. How can I help you today? I can assist with:"
                  ++ newline ++ newline
                  ++ "• Requesting documents (OTR, certificates, etc.)" ++ newline
                  ++ "• Subject enrollment" ++ newline
                  ++ "• Grade inquiries" ++ newline
                  ++ "• General questions" ++ newline ++ newline
                  ++ "Just ask me anything, and I'll help you create a ticket if needed!")
                 None None None None))),
     sampleWorld twelveTickets).
Proof.
  intros newline.
  apply (greeting_is_terminal (sampleEnv 9) (sampleWorld twelveTickets)
           "  Good Morning! I want to apply for a grant" None 7 [] "good morning"
           "! i want to apply for a grant").
  - simpl. tauto.
  - vm_compute. reflexivity.
Defined.

(** C8: when the utterance is a confirmation and the persistence layer
    refuses the ticket of this request, for whatever reason, the handler
    answers with status 200 and a success envelope whose text is the apology
    that suggests a retry, with no action and no ticket, and the ticket store
    is unchanged. *)
Theorem persistence_failure_is_recovered env w m ctx u e :
  detectGreeting m = false ->
  isTicketConfirmation (trim (toLowerCase m)) = true ->
  saveOutcome env (ticketDataOf (confirmationInfo (mkRequest m ctx u [])) u)
    (ticketStore w) = inl e ->
  handler env (mkRequest m ctx u []) w
  = (Ok (mkHttp 200
           (Success
              (mkResponse
                 "I'm having trouble creating the ticket right now. Please try creating a ticket manually through the Tickets section, or let me know if you'd like to try again."
                 None None None None))), w).
Proof.
  intros Hg Hc Hfail.
  rewrite handler_valid by reflexivity.
  rewrite route_confirmation by assumption.
  unfold bind.
  pose proof (tryCreate_cases env (confirmationInfo (mkRequest m ctx u []))
                (req_user (mkRequest m ctx u [])) initialResponse w) as H.
  cbn [req_user] in H. rewrite Hfail in H. cbn [req_user]. rewrite H. reflexivity.
Qed.

Lemma persistence_failure_is_recovered_witness :
  handler validatingEnv
    (mkRequest "yes" (Some (mkContext (Some "please look into my records")
                              (Some "Records"))) 7 [])
    (sampleWorld twelveTickets)
  = (Ok (mkHttp 200
           (Success
              (mkResponse
                 "I'm having trouble creating the ticket right now. Please try creating a ticket manually through the Tickets section, or let me know if you'd like to try again."
                 None None None None))),
     sampleWorld twelveTickets).
Proof.
  apply (persistence_failure_is_recovered validatingEnv (sampleWorld twelveTickets)
           "yes" (Some (mkContext (Some "please look into my records")
                          (Some "Records"))) 7
           (mkError "ValidationError" "category is not a valid enum value")).
  - vm_compute. reflexivity.
  - vm_compute. reflexivity.
  - vm_compute. reflexivity.
Defined.




(** *** Stages 3 and 4 *)

Lemma route_department env req w d :
  detectGreeting (req_message req) = false ->
  isTicketConfirmation (trim (toLowerCase (req_message req))) = false ->
  findDepartmentByService (departmentData w) (req_message req) = Some d ->
  route env req w
  = (Ok (json (Success
           (if hasCue departmentIndicators (req_message req)
            then mkResponse (formatDepartmentInfo d ++ departmentOffer)
                   (Some ticket_offer) None None
                   (Some (mkContext (Some (req_message req))
                            (Some (detectTicketCategory (req_message req)))))
            else mkResponse (formatDepartmentInfo d) (Some department_info)
                   None None None))), w).
Proof.
  intros Hg Hc Hd. unfold route, hasCue. rewrite Hg. cbv zeta. rewrite Hc.
  unfold bind, getWorld. cbv beta iota. rewrite Hd.
  destruct (some _ departmentIndicators); reflexivity.
Qed.

Lemma route_faq env req w a :
  detectGreeting (req_message req) = false ->
  isTicketConfirmation (trim (toLowerCase (req_message req))) = false ->
  findDepartmentByService (departmentData w) (req_message req) = None ->
  matchFAQ (faqData w) (req_message req) = Some a ->
  truthy a = true ->
  route env req w
  = (Ok (json (Success
           (if hasCue faqIndicators (req_message req)
            then mkResponse (a ++ faqOffer) (Some ticket_offer) None None
                   (Some (mkContext (Some (req_message req))
                            (Some (detectTicketCategory (req_message req)))))
            else mkResponse a None None None None))), w).
Proof.
  intros Hg Hc Hd Hf Ha. unfold route, hasCue. rewrite Hg. cbv zeta. rewrite Hc.
  unfold bind, getWorld. cbv beta iota. rewrite Hd, Hf.
  cbn [optTruthy optText]. rewrite Ha.
  destruct (some _ faqIndicators); reflexivity.
Qed.




(** *** The department scan *)

Lemma findDepartment_needs_cue depts m :
  isLocationInquiry m = false -> findDepartmentByService depts m = None.
Proof.
  intros H. unfold findDepartmentByService. destruct depts; [reflexivity|].
  cbv zeta. unfold isLocationInquiry in H. rewrite H. reflexivity.
Qed.




Lemma serviceMatch_listed lm d svcs service :
  services d = Some svcs -> In service svcs ->
  includes lm (toLowerCase service) = true ->
  serviceMatch lm d = true.
Proof.
  intros Hs Hin Hinc. unfold serviceMatch, some. rewrite Hs.
  apply existsb_exists. exists service. auto.
Qed.

(** *** The department scan, in terms of occurrences *)









(** *** The status query *)

Lemma insertNewest_perm t ts : Permutation (t :: ts) (insertNewest t ts).
Proof.
  induction ts as [|u ts IH]; simpl; [apply Permutation_refl|].
  destruct (createdAt u <=? createdAt t); [apply Permutation_refl|].
  apply perm_trans with (u :: t :: ts); [apply perm_swap|].
  apply perm_skip. exact IH.
Qed.

Lemma sortNewestFirst_perm ts : Permutation ts (sortNewestFirst ts).
Proof.
  induction ts as [|t ts IH]; simpl; [apply perm_nil|].
  apply perm_trans with (t :: sortNewestFirst ts).
  - apply perm_skip. exact IH.
  - apply insertNewest_perm.
Qed.






Lemma filter_none {A} (f : A -> bool) (l : list A) :
  (forall x, In x l -> f x = false) -> filter f l = [].
Proof.
  induction l as [|x l IH]; intros H; [reflexivity|].
  simpl. rewrite (H x (or_introl eq_refl)). apply IH.
  intros y Hy. apply H. right. exact Hy.
Qed.

Lemma append_assoc (a b c : string) : ((a ++ b) ++ c)%string = (a ++ b ++ c)%string.
Proof.
  induction a as [|x a IH]; [reflexivity|]. simpl. rewrite IH. reflexivity.
Qed.

Lemma append_empty_r (a : string) : (a ++ EmptyString)%string = a.
Proof.
  induction a as [|x a IH]; [reflexivity|]. simpl. rewrite IH. reflexivity.
Qed.


Lemma route_status env req w :
  detectGreeting (req_message req) = false ->
  isTicketConfirmation (trim (toLowerCase (req_message req))) = false ->
  findDepartmentByService (departmentData w) (req_message req) = None ->
  optTruthy (matchFAQ (faqData w) (req_message req)) = false ->
  detectTicketStatusInquiry (trim (toLowerCase (req_message req))) = true ->
  findOutcome env = None ->
  let number := extractTicketNumber (req_message req) in
  let found :=
    findTickets (req_user req) (if optTruthy number then number else None)
      (ticketStore w) in
  route env req w
  = (Ok (json (Success
           (if List.length found =? 0
            then if optTruthy number
                 then mkResponse (ticketNotFoundText (optText number))
                        None None None None
                 else mkResponse noTicketsText None None None None
            else mkResponse (formatTicketStatus env found (optTruthy number))
                   (Some ticket_status) None (Some (map ticketSummary found))
                   None))), w).
Proof.
  intros Hg Hc Hd Hf Hs Hfind number found.
  unfold route. rewrite Hg. cbv zeta. rewrite Hc.
  unfold bind at 1. unfold getWorld. cbv beta iota. rewrite Hd, Hf, Hs.
  unfold bind, statusBranch, tryCatch, bind, getUserTickets, tryCatch, find, ret.
  rewrite Hfind. fold number. fold found.
  destruct (List.length found =? 0); [destruct (optTruthy number)|]; reflexivity.
Qed.



(** C5: "my tickets" is a status inquiry, and the loose pattern reads the
    final "s" of "tickets" as the ticket number "S"; unless the user owns a
    ticket numbered "S", the answer, with status 200, is the text that no
    ticket with number #S was found in the account, with no action and no
    list, whatever tickets the user has. *)
Theorem my_tickets_reads_S_as_ticket_number env w ctx u errs :
  optTruthy (matchFAQ (faqData w) "my tickets") = false ->
  findOutcome env = None ->
  (forall t, In t (ticketStore w) -> createdBy t = u -> ticketNumber t <> "S") ->
  detectTicketStatusInquiry (trim (toLowerCase "my tickets")) = true
  /\ extractTicketNumber "my tickets" = Some "S"
  /\ findTickets u (Some "S") (ticketStore w) = []
  /\ route env (mkRequest "my tickets" ctx u errs) w
     = (Ok (mkHttp 200
              (Success
                 (mkResponse
                    "I couldn't find a ticket with number #S in your account. Please check the ticket number and try again, or ask me to show all your tickets."
                    None None None None))), w).
Proof.
  intros Hfaq Hfind Hnone.
  assert (Hempty : findTickets u (Some "S") (ticketStore w) = []).
  { unfold findTickets. rewrite filter_none; [reflexivity|].
    intros t Hin. unfold matchesQuery, isCreatedBy.
    destruct (createdBy t =? u) eqn:Hu; [|reflexivity].
    apply Nat.eqb_eq in Hu. apply String.eqb_neq. exact (Hnone t Hin Hu). }
  split; [vm_compute; reflexivity|].
  split; [vm_compute; reflexivity|].
  split; [exact Hempty|].
  rewrite (route_status env (mkRequest "my tickets" ctx u errs) w).
  - cbn [req_message req_user].
    change (extractTicketNumber "my tickets") with (Some "S").
    cbn [optTruthy truthy optText]. rewrite Hempty. reflexivity.
  - vm_compute. reflexivity.
  - vm_compute. reflexivity.
  - apply findDepartment_needs_cue. vm_compute. reflexivity.
  - exact Hfaq.
  - vm_compute. reflexivity.
  - exact Hfind.
Qed.

Lemma my_tickets_reads_S_as_ticket_number_witness :
  detectTicketStatusInquiry (trim (toLowerCase "my tickets")) = true
  /\ extractTicketNumber "my tickets" = Some "S"
  /\ findTickets 7 (Some "S") (ticketStore (sampleWorld twelveTickets)) = []
  /\ route (sampleEnv 9) (mkRequest "my tickets" None 7 [])
       (sampleWorld twelveTickets)
     = (Ok (mkHttp 200
              (Success
                 (mkResponse
                    "I couldn't find a ticket with number #S in your account. Please check the ticket number and try again, or ask me to show all your tickets."
                    None None None None))),
        sampleWorld twelveTickets).
Proof.
  apply (my_tickets_reads_S_as_ticket_number (sampleEnv 9)
           (sampleWorld twelveTickets) None 7 []).
  - vm_compute. reflexivity.
  - reflexivity.
  - intros t Hin _. simpl in Hin.
    repeat (destruct Hin as [<-|Hin]; [vm_compute; discriminate|]).
    contradiction.
Defined.

(** *** The text of the list view *)








(** ** Further checks against the examples of the specification *)

(** The first department that matches wins, also when a later one matches
    more of its services. *)
Example first_match_not_best :
  findDepartmentByService
    [mkDepartment "Student Affairs" "Main Hall" "8-5" None None (Some ["COE"]);
     mkDepartment "Registrar" "Admin Building" "8-5" None None
       (Some ["COE"; "my COE"; "get"])]
    "where can I get my COE"
  = Some (mkDepartment "Student Affairs" "Main Hall" "8-5" None None (Some ["COE"])).
Proof. vm_compute. reflexivity. Qed.

(** A text with "urgent" and no category keyword is a general inquiry of
    urgent priority. *)
Example urgent_without_category :
  let info := extractTicketInfo "this is urgent"
                (detectTicketCategory "this is urgent") in
  info_category info = "General Inquiry" /\ info_priority info = "Urgent".
Proof. vm_compute. split; reflexivity. Qed.

(** A status inquiry for a ticket number the user does not own. *)
Example unknown_ticket_number :
  route (sampleEnv 9) (mkRequest "check ticket TICKET-20240101-ABC" None 7 [])
    (sampleWorld twelveTickets)
  = (Ok (json (Success
           (mkResponse (ticketNotFoundText "TICKET-20240101-ABC")
              None None None None))), sampleWorld twelveTickets).
Proof. vm_compute. reflexivity. Qed.

(** A status inquiry for a ticket the user owns shows the detail view. *)
Example known_ticket_number :
  exists r,
    fst (route (sampleEnv 9) (mkRequest "check ticket ticket-20240101-5" None 7 [])
           (sampleWorld twelveTickets))
    = Ok (json (Success r))
    /\ action r = Some ticket_status
    /\ text r = ticketDetail (sampleEnv 9) (sampleTicket 7 5).
Proof. eexists. vm_compute. repeat split. Qed.

(** Category detection takes the first category, in declared order, with a
    keyword in the text. *)
Example category_order :
  detectTicketCategory "enrollment certificate" = "Subject Enrollment".
Proof. vm_compute. reflexivity. Qed.

(** ** More about the handler: lengths, effects and recoveries *)

Lemma length_take n s : String.length (take n s) = Nat.min n (String.length s).
Proof.
  revert s. induction n as [|n IH]; intros s; [reflexivity|].
  destruct s as [|c s]; [reflexivity|]. simpl. rewrite IH. reflexivity.
Qed.

Lemma length_append (a b : string) :
  String.length (a ++ b) = String.length a + String.length b.
Proof.
  induction a as [|c a IH]; [reflexivity|]. simpl. rewrite IH. reflexivity.
Qed.

Lemma orElse_truthy a b : truthy b = true -> truthy (orElse a b) = true.
Proof.
  intros Hb. unfold orElse. destruct (truthy a) eqn:Ha; assumption.
Qed.

(** The data handed to the Ticket model always meets the length limits that
    the two repairs of [createTicket] aim at. *)
Lemma ticketDataOf_bounds info u :
  5 <= String.length (data_title (ticketDataOf info u)) <= 200
  /\ 10 <= String.length (data_description (ticketDataOf info u)) <= 5000
  /\ data_status (ticketDataOf info u) = "Pending"
  /\ data_createdBy (ticketDataOf info u) = u
  /\ truthy (data_category (ticketDataOf info u)) = true
  /\ truthy (data_priority (ticketDataOf info u)) = true.
Proof.
  unfold ticketDataOf. cbn [data_title data_description data_status
                            data_createdBy data_category data_priority].
  split; [|split; [|split; [|split; [|split]]]];
    try reflexivity; try (apply orElse_truthy; reflexivity).
  - set (t := take 200 (orElse (info_title info) "Chatbot Request")).
    assert (Ht : String.length t <= 200).
    { unfold t. rewrite length_take. apply Nat.le_min_l. }
    destruct (String.length t <? 5) eqn:Hlt.
    + apply Nat.ltb_lt in Hlt. rewrite length_append.
      change (String.length "Request from chatbot: ") with 22. lia.
    + apply Nat.ltb_ge in Hlt. lia.
  - set (d := take 5000 _).
    assert (Hd : String.length d <= 5000).
    { unfold d. rewrite length_take. apply Nat.le_min_l. }
    destruct (String.length d <? 10) eqn:Hlt.
    + apply Nat.ltb_lt in Hlt. rewrite length_append.
      change (String.length " (Created via chatbot)") with 22. lia.
    + apply Nat.ltb_ge in Hlt. lia.
Qed.

(** What one call of the router does to the world: nothing, or, for a
    confirmation that is no greeting, one ticket made from the content chosen
    by the confirmation stage and owned by the caller. *)
Lemma route_world env req w :
  snd (route env req w) = w
  \/ (detectGreeting (req_message req) = false
      /\ isTicketConfirmation (trim (toLowerCase (req_message req))) = true
      /\ exists g,
           saveOutcome env (ticketDataOf (confirmationInfo req) (req_user req))
             (ticketStore w) = inr g
           /\ snd (route env req w)
              = mkWorld (faqData w) (departmentData w)
                  (ticketStore w
                   ++ [newTicket g (ticketDataOf (confirmationInfo req)
                                      (req_user req))])%list).
Proof.
  destruct (detectGreeting (req_message req)) eqn:Hg.
  { left. rewrite route_greeting by assumption. reflexivity. }
  destruct (isTicketConfirmation (trim (toLowerCase (req_message req)))) eqn:Hc.
  - rewrite route_confirmation by assumption. unfold bind.
    pose proof (tryCreate_cases env (confirmationInfo req) (req_user req)
                  initialResponse w) as H.
    destruct (saveOutcome env (ticketDataOf (confirmationInfo req) (req_user req))
                (ticketStore w)) as [e|g] eqn:Hsave.
    + left. rewrite H. reflexivity.
    + right. split; [reflexivity|]. split; [reflexivity|]. exists g.
      split; [reflexivity|]. cbv zeta in H.
      destruct (populateOutcome env); rewrite H; reflexivity.
  - left. unfold route. rewrite Hg. cbv zeta. rewrite Hc.
    unfold bind, getWorld. cbv beta iota.
    destruct (findDepartmentByService (departmentData w) (req_message req));
      [reflexivity|].
    destruct (optTruthy (matchFAQ (faqData w) (req_message req))); [reflexivity|].
    destruct (detectTicketStatusInquiry (trim (toLowerCase (req_message req)))).
    { destruct (statusBranch_keeps_world env (req_message req) (req_user req)
                  initialResponse w) as [r' Hr].
      rewrite Hr. reflexivity. }
    destruct (some _ ticketIndicators); reflexivity.
Qed.

Lemma handler_world env req w :
  snd (handler env req w) = snd (route env req w)
  \/ (req_validationErrors req <> [] /\ snd (handler env req w) = w).
Proof.
  destruct (req_validationErrors req) as [|e errs] eqn:Hv.
  - left. rewrite handler_valid by assumption. reflexivity.
  - right. split; [discriminate|]. unfold handler, tryCatch. rewrite Hv. reflexivity.
Qed.

(** X1: every ticket the handler adds to the store is owned by the caller,
    is pending and unassigned, and has a title of 5 to 200 characters and a
    description of 10 to 5000 characters; stated for requests whose texts are
    of the ASCII range, where the characters counted here are those the code
    counts. *)
Theorem created_ticket_is_well_formed env req w t :
  asciiRequest req = true ->
  ticketStore (snd (handler env req w)) = (ticketStore w ++ [t])%list ->
  createdBy t = req_user req
  /\ status t = "Pending"
  /\ assignedTo t = None
  /\ resolution t = None
  /\ 5 <= String.length (title t) <= 200
  /\ 10 <= String.length (description t) <= 5000
  /\ truthy (category t) = true
  /\ truthy (priority t) = true.
Proof.
  intros _ Hstore.
  assert (Hsame : forall l : list Ticket, l = (l ++ [t])%list -> False).
  { intros l Hl. apply (f_equal (@List.length Ticket)) in Hl.
    rewrite length_app in Hl. simpl in Hl. lia. }
  destruct (handler_world env req w) as [Hh|[_ Hh]];
    [|rewrite Hh in Hstore; destruct (Hsame _ Hstore)].
  rewrite Hh in Hstore.
  destruct (route_world env req w) as [Hr|[_ [_ [g [_ Hr]]]]];
    rewrite Hr in Hstore; [destruct (Hsame _ Hstore)|].
  cbn [ticketStore] in Hstore. apply app_inv_head in Hstore.
  injection Hstore as <-.
  destruct (ticketDataOf_bounds (confirmationInfo req) (req_user req))
    as [Ht [Hd [Hs [Hu [Hc Hp]]]]].
  cbn [newTicket createdBy status assignedTo resolution title description
       category priority].
  repeat split; try assumption; try apply Ht; try apply Hd.
Qed.

Lemma created_ticket_is_well_formed_witness :
  let t := newTicket (sampleGenerated
                        (ticketDataOf (extractTicketInfo "yes" "General Inquiry") 7) [])
             (ticketDataOf (extractTicketInfo "yes" "General Inquiry") 7) in
  createdBy t = 7
  /\ status t = "Pending"
  /\ assignedTo t = None
  /\ resolution t = None
  /\ 5 <= String.length (title t) <= 200
  /\ 10 <= String.length (description t) <= 5000
  /\ truthy (category t) = true
  /\ truthy (priority t) = true.
Proof.
  intros t.
  apply (created_ticket_is_well_formed (sampleEnv 9) (mkRequest "yes" None 7 [])
           (sampleWorld []) t).
  - vm_compute. reflexivity.
  - vm_compute. reflexivity.
Defined.

(** X2: the handler adds a ticket only for an utterance that is a
    confirmation, is no greeting and passed validation; for every other
    request the world after the call is the world before it. *)
Theorem no_ticket_without_confirmation env req w :
  detectGreeting (req_message req) = true
  \/ isTicketConfirmation (trim (toLowerCase (req_message req))) = false
  \/ req_validationErrors req <> [] ->
  snd (handler env req w) = w.
Proof.
  intros H.
  destruct (handler_world env req w) as [Hh|[_ Hh]]; [|exact Hh].
  rewrite Hh.
  destruct (route_world env req w) as [Hr|[Hg [Hc _]]]; [exact Hr|].
  destruct H as [H|[H|H]]; try congruence.
  destruct (req_validationErrors req) as [|e errs] eqn:Hv; [congruence|].
  unfold handler, tryCatch in Hh. rewrite Hv in Hh. simpl in Hh.
  rewrite <- Hh. reflexivity.
Qed.

Lemma no_ticket_without_confirmation_witness :
  snd (handler (sampleEnv 9)
         (mkRequest "I need an OTR, 2 copies, purpose: job application" None 7 [])
         (sampleWorld twelveTickets))
  = sampleWorld twelveTickets.
Proof.
  apply (no_ticket_without_confirmation (sampleEnv 9)
           (mkRequest "I need an OTR, 2 copies, purpose: job application" None 7 [])
           (sampleWorld twelveTickets)).
  right. left. vm_compute. reflexivity.
Defined.

(** X3: on the requests of the model, whose message and context fields are
    strings, the handler answers 400 with the validation errors when there
    are any, leaving the world as it was, and otherwise 200 with a success
    envelope: no failure of the store, of the ticket query or of the
    completion service reaches the outer handler. *)
Theorem handler_status_codes env req w :
  (req_validationErrors req <> [] ->
   handler env req w
   = (Ok (mkHttp 400 (ValidationFailed (req_validationErrors req))), w))
  /\ (req_validationErrors req = [] ->
      exists response w',
        handler env req w = (Ok (mkHttp 200 (Success response)), w')).
Proof.
  split.
  - intros Hv. unfold handler, tryCatch.
    destruct (req_validationErrors req); [congruence|reflexivity].
  - intros Hv. rewrite handler_valid by assumption.
    unfold route.
    destruct (detectGreeting (req_message req)); [unfold ret; eauto|].
    cbv zeta.
    destruct (isTicketConfirmation (trim (toLowerCase (req_message req)))).
    + destruct (contextMessage (req_context req)); unfold bind;
        match goal with
        | |- context [tryCreate env ?i ?u ?r w] =>
            destruct (tryCreate_framed env i u r w) as [r' [Hr _]];
            destruct (tryCreate env i u r w) as [[x|e] w']; simpl in Hr;
              [|discriminate]
        end; unfold ret, json; eauto.
    + unfold bind, getWorld. cbv beta iota.
      destruct (findDepartmentByService (departmentData w) (req_message req));
        [unfold ret, json; eauto|].
      destruct (optTruthy (matchFAQ (faqData w) (req_message req)));
        [unfold ret, json; eauto|].
      destruct (detectTicketStatusInquiry (trim (toLowerCase (req_message req)))).
      { destruct (statusBranch_keeps_world env (req_message req) (req_user req)
                    initialResponse w) as [r' Hr].
        rewrite Hr. unfold ret, json. eauto. }
      destruct (some _ ticketIndicators); unfold ret, json; eauto.
Qed.

Lemma handler_status_codes_witness :
  handler failingEnv (mkRequest "x" None 7 ["Message must be between 1 and 1000 characters"])
    (sampleWorld [])
  = (Ok (mkHttp 400
           (ValidationFailed ["Message must be between 1 and 1000 characters"])),
     sampleWorld []).
Proof.
  apply (proj1 (handler_status_codes failingEnv
                  (mkRequest "x" None 7
                     ["Message must be between 1 and 1000 characters"])
                  (sampleWorld []))).
  discriminate.
Defined.

(** X4: when the ticket is saved and resolving its creator fails, the ticket
    stays in the store, and the caller is told that the ticket could not be
    created: the answer has the apology, no action and no ticket reference. *)
Theorem populate_failure_leaves_ticket env req w g e :
  detectGreeting (req_message req) = false ->
  isTicketConfirmation (trim (toLowerCase (req_message req))) = true ->
  saveOutcome env (ticketDataOf (confirmationInfo req) (req_user req))
    (ticketStore w) = inr g ->
  populateOutcome env = Some e ->
  route env req w
  = (Ok (json (Success (mkResponse creationFailedText None None None None))),
     mkWorld (faqData w) (departmentData w)
       (ticketStore w
        ++ [newTicket g (ticketDataOf (confirmationInfo req) (req_user req))])%list).
Proof.
  intros Hg Hc Hsave Hpop.
  rewrite route_confirmation by assumption. unfold bind.
  pose proof (tryCreate_cases env (confirmationInfo req) (req_user req)
                initialResponse w) as H.
  rewrite Hsave in H. cbv zeta in H. rewrite Hpop in H. rewrite H. reflexivity.
Qed.

Lemma populate_failure_leaves_ticket_witness :
  route populateFailingEnv (mkRequest "yes" (Some exampleContext) 7 [])
    (sampleWorld [])
  = (Ok (json (Success (mkResponse creationFailedText None None None None))),
     mkWorld [gradesFaq] [cashier; registrar]
       [newTicket
          (sampleGenerated
             (ticketDataOf
                (confirmationInfo (mkRequest "yes" (Some exampleContext) 7 [])) 7) [])
          (ticketDataOf
             (confirmationInfo (mkRequest "yes" (Some exampleContext) 7 [])) 7)]).
Proof.
  apply (populate_failure_leaves_ticket populateFailingEnv
           (mkRequest "yes" (Some exampleContext) 7 []) (sampleWorld [])
           (sampleGenerated
              (ticketDataOf
                 (confirmationInfo (mkRequest "yes" (Some exampleContext) 7 [])) 7) [])
           (mkError "MongoError" "connection lost")).
  - vm_compute. reflexivity.
  - vm_compute. reflexivity.
  - reflexivity.
  - reflexivity.
Defined.

(** *** The later stages *)

Lemma route_late env req w :
  detectGreeting (req_message req) = false ->
  isTicketConfirmation (trim (toLowerCase (req_message req))) = false ->
  findDepartmentByService (departmentData w) (req_message req) = None ->
  optTruthy (matchFAQ (faqData w) (req_message req)) = false ->
  route env req w
  = if detectTicketStatusInquiry (trim (toLowerCase (req_message req)))
    then bind (statusBranch env (req_message req) (req_user req) initialResponse)
           (fun response => ret (json (Success response))) w
    else if hasCue ticketIndicators (req_message req)
    then (Ok (json (Success
                (mkResponse needsTicketText (Some ticket_offer) None None
                   (Some (offerContext (req_message req)))))), w)
    else (Ok (json (Success
                (mkResponse (getGPTResponse env (departmentData w) (req_message req))
                   None None None None))), w).
Proof.
  intros Hg Hc Hd Hf. unfold route, hasCue. rewrite Hg. cbv zeta. rewrite Hc.
  unfold bind at 1. unfold getWorld. cbv beta iota. rewrite Hd, Hf.
  destruct (detectTicketStatusInquiry _); [reflexivity|].
  destruct (some _ ticketIndicators); reflexivity.
Qed.

(** *** What an answer depends on *)







(** The answers of the two remaining stages depend on more than the request
    and the catalogs: a status inquiry on the ticket store, the completion
    fallback on the reply of the completion service. *)
Example status_answer_depends_on_store :
  fst (route (sampleEnv 9) (mkRequest "show ticket" None 7 []) (sampleWorld []))
  <> fst (route (sampleEnv 9) (mkRequest "show ticket" None 7 [])
            (sampleWorld twelveTickets)).
Proof.
  vm_compute. intros H. discriminate H.
Qed.

Example fallback_answer_depends_on_completion :
  fst (route (answeringEnv "Please visit the office.")
         (mkRequest "what time is it" None 7 []) (sampleWorld []))
  <> fst (route (answeringEnv "The office is closed.")
            (mkRequest "what time is it" None 7 []) (sampleWorld [])).
Proof.
  vm_compute. intros H. discriminate H.
Qed.





(** *** One case per stage *)

Ltac route_cases env req w :=
  let Hg := fresh "Hg" in
  let Hc := fresh "Hc" in
  let Hd := fresh "Hd" in
  let Hf := fresh "Hf" in
  let Hm := fresh "Hm" in
  let d := fresh "d" in
  let a := fresh "a" in
  destruct (detectGreeting (req_message req)) eqn:Hg;
  [ rewrite (route_greeting env req w Hg)
  | destruct (isTicketConfirmation (trim (toLowerCase (req_message req)))) eqn:Hc;
    [ rewrite (route_confirmation env req w Hg Hc)
    | destruct (findDepartmentByService (departmentData w) (req_message req))
        as [d|] eqn:Hd;
      [ rewrite (route_department env req w d Hg Hc Hd)
      | destruct (optTruthy (matchFAQ (faqData w) (req_message req))) eqn:Hf;
        [ destruct (matchFAQ (faqData w) (req_message req)) as [a|] eqn:Hm;
          [ cbn [optTruthy] in Hf;
            rewrite (route_faq env req w a Hg Hc Hd Hm Hf)
          | discriminate Hf ]
        | rewrite (route_late env req w Hg Hc Hd Hf) ] ] ] ].

Lemma tryCreate_response env info u w :
  exists r w', tryCreate env info u initialResponse w = (Ok r, w')
               /\ action r <> Some ticket_offer
               /\ action r <> Some ticket_status
               /\ tickets r = None
               /\ conversationContext r = None.
Proof.
  pose proof (tryCreate_cases env info u initialResponse w) as H.
  destruct (saveOutcome env (ticketDataOf info u) (ticketStore w)) as [e|g].
  - rewrite H. eexists. eexists. split; [reflexivity|].
    cbn. repeat split; discriminate.
  - cbv zeta in H. destruct (populateOutcome env); rewrite H;
      (eexists; eexists; split; [reflexivity|]); cbn; repeat split; discriminate.
Qed.

Lemma statusBranch_response env m u w :
  exists r, statusBranch env m u initialResponse w = (Ok r, w)
            /\ action r <> Some ticket_offer
            /\ conversationContext r = None
            /\ (tickets r = None
                \/ (findOutcome env = None
                    /\ let found :=
                         findTickets u
                           (if optTruthy (extractTicketNumber m)
                            then extractTicketNumber m else None) (ticketStore w) in
                       tickets r = Some (map ticketSummary found)
                       /\ action r = Some ticket_status
                       /\ text r = formatTicketStatus env found
                                     (optTruthy (extractTicketNumber m)))).
Proof.
  unfold statusBranch, tryCatch, bind, getUserTickets, tryCatch, find, throw, ret.
  destruct (findOutcome env).
  { eexists. split; [reflexivity|]. cbn. repeat split; try discriminate. auto. }
  match goal with |- context [List.length ?l =? 0] => destruct (List.length l =? 0) end.
  - destruct (optTruthy (extractTicketNumber m));
      (eexists; split; [reflexivity|]); cbn; repeat split; try discriminate; auto.
  - eexists. split; [reflexivity|]. cbn. repeat split; try discriminate.
    right. repeat split.
Qed.

Lemma hasCue_nonempty cues m :
  Forall (fun cue => truthy cue = true) cues ->
  hasCue cues m = true -> truthy m = true.
Proof.
  intros Hcues H. destruct m as [|c m]; [|reflexivity].
  unfold hasCue, some in H. apply existsb_exists in H.
  destruct H as [cue [Hin Hinc]].
  rewrite Forall_forall in Hcues. specialize (Hcues cue Hin).
  destruct cue; [discriminate|]. vm_compute in Hinc. discriminate.
Qed.

(** Every answer that offers a ticket carries the context made of the
    utterance and its detected category, and changes nothing. *)
Lemma offer_carries_context env req w r w' :
  route env req w = (Ok (json (Success r)), w') ->
  action r = Some ticket_offer ->
  conversationContext r = Some (offerContext (req_message req))
  /\ w' = w
  /\ truthy (req_message req) = true.
Proof.
  route_cases env req w.
  - intros H. injection H as <- <-. discriminate.
  - unfold bind.
    destruct (tryCreate_response env (confirmationInfo req) (req_user req) w)
      as [r0 [w0 [H0 [Hno _]]]].
    rewrite H0. unfold ret. intros H. injection H as <- <-. intros Ha.
    congruence.
  - destruct (hasCue departmentIndicators (req_message req)) eqn:Hcue;
      intros H; injection H as <- <-; [|discriminate].
    intros _. repeat split.
    apply (hasCue_nonempty departmentIndicators); [|exact Hcue].
    repeat constructor.
  - destruct (hasCue faqIndicators (req_message req)) eqn:Hcue;
      intros H; injection H as <- <-; [|discriminate].
    intros _. repeat split.
    apply (hasCue_nonempty faqIndicators); [|exact Hcue].
    repeat constructor.
  - destruct (detectTicketStatusInquiry _).
    + unfold bind.
      destruct (statusBranch_response env (req_message req) (req_user req) w)
        as [r0 [H0 [Hno _]]].
      rewrite H0. unfold ret. intros H. injection H as <- <-. congruence.
    + destruct (hasCue ticketIndicators (req_message req)) eqn:Hcue;
        intros H; injection H as <- <-; [|discriminate].
      intros _. repeat split.
      apply (hasCue_nonempty ticketIndicators); [|exact Hcue].
      repeat constructor.
Qed.

(** *** Category detection *)

Lemma filter_length_positive {A} (f : A -> bool) (l : list A) :
  (0 <? List.length (filter f l)) = existsb f l.
Proof.
  induction l as [|x l IH]; [reflexivity|].
  simpl. destruct (f x); [reflexivity|exact IH].
Qed.

Lemma keywordIn_existsb lm kws :
  keywordIn lm kws <->
  existsb (fun keyword => includes lm (toLowerCase keyword)) kws = true.
Proof.
  unfold keywordIn. rewrite existsb_exists. tauto.
Qed.

Lemma firstCategory_first entries lm c :
  firstCategory entries lm = Some c <->
  exists before kws after,
    entries = (before ++ (c, kws) :: after)%list
    /\ Forall (fun entry => ~ keywordIn lm (snd entry)) before
    /\ keywordIn lm kws.
Proof.
  induction entries as [|[c0 kws0] entries IH]; simpl.
  - split; [discriminate|].
    intros [before [kws [after [H _]]]]. destruct before; discriminate.
  - rewrite filter_length_positive.
    destruct (existsb _ kws0) eqn:Hk.
    + split.
      * intros H. injection H as <-. exists [], kws0, entries.
        split; [reflexivity|]. split; [constructor|].
        apply keywordIn_existsb. exact Hk.
      * intros [before [kws [after [Heq [Hbefore Hin]]]]].
        destruct before as [|[c1 k1] before].
        -- injection Heq as -> _. reflexivity.
        -- injection Heq as -> -> _. inversion Hbefore as [|? ? Hno _]; subst.
           exfalso. apply Hno. apply keywordIn_existsb. exact Hk.
    + rewrite IH. split.
      * intros [before [kws [after [Heq [Hbefore Hin]]]]].
        exists ((c0, kws0) :: before), kws, after. subst entries.
        split; [reflexivity|]. split; [|exact Hin].
        constructor; [|exact Hbefore].
        cbn [snd]. rewrite keywordIn_existsb. congruence.
      * intros [before [kws [after [Heq [Hbefore Hin]]]]].
        destruct before as [|[c1 k1] before].
        -- injection Heq as -> ->. apply keywordIn_existsb in Hin. congruence.
        -- injection Heq as -> -> ->. inversion Hbefore; subst.
           exists before, kws, after. auto.
Qed.

Lemma firstCategory_none entries lm :
  firstCategory entries lm = None <->
  Forall (fun entry => ~ keywordIn lm (snd entry)) entries.
Proof.
  induction entries as [|[c0 kws0] entries IH]; simpl.
  - split; [constructor|reflexivity].
  - rewrite filter_length_positive.
    destruct (existsb _ kws0) eqn:Hk.
    + split; [discriminate|]. intros H. inversion H as [|? ? Hno _]; subst.
      exfalso. apply Hno. apply keywordIn_existsb. exact Hk.
    + rewrite IH. split.
      * intros H. constructor; [|exact H].
        cbn [snd]. rewrite keywordIn_existsb. congruence.
      * intros H. inversion H; assumption.
Qed.

(** X7: category detection returns the first category, in declared order,
    one of whose keywords occurs in the case-folded text, and "General
    Inquiry" when no keyword of any category occurs; the result is always
    one of the ten declared categories, so it is never empty. *)
Theorem category_is_first_match m :
  ((exists before kws after,
      ticketKeywords = (before ++ (detectTicketCategory m, kws) :: after)%list
      /\ Forall (fun entry => ~ keywordIn (toLowerCase m) (snd entry)) before
      /\ keywordIn (toLowerCase m) kws)
   \/ (Forall (fun entry => ~ keywordIn (toLowerCase m) (snd entry)) ticketKeywords
       /\ detectTicketCategory m = "General Inquiry"))
  /\ In (detectTicketCategory m) (map fst ticketKeywords)
  /\ truthy (detectTicketCategory m) = true.
Proof.
  assert (Hfirst :
    (exists before kws after,
       ticketKeywords = (before ++ (detectTicketCategory m, kws) :: after)%list
       /\ Forall (fun entry => ~ keywordIn (toLowerCase m) (snd entry)) before
       /\ keywordIn (toLowerCase m) kws)
    \/ (Forall (fun entry => ~ keywordIn (toLowerCase m) (snd entry)) ticketKeywords
        /\ detectTicketCategory m = "General Inquiry")).
  { unfold detectTicketCategory.
    destruct (firstCategory ticketKeywords (toLowerCase m)) as [c|] eqn:Hc.
    - left. apply firstCategory_first. exact Hc.
    - right. split; [|reflexivity]. apply firstCategory_none. exact Hc. }
  assert (Hin : In (detectTicketCategory m) (map fst ticketKeywords)).
  { destruct Hfirst as [[before [kws [after [Heq _]]]]|[_ ->]].
    - rewrite Heq. rewrite map_app. apply in_or_app. right. left. reflexivity.
    - simpl. tauto. }
  split; [exact Hfirst|]. split; [exact Hin|].
  simpl in Hin.
  repeat (destruct Hin as [<-|Hin]; [reflexivity|]). contradiction.
Qed.

Lemma detectTicketCategory_truthy m : truthy (detectTicketCategory m) = true.
Proof.
  unfold detectTicketCategory.
  destruct (firstCategory ticketKeywords (toLowerCase m)) as [c|] eqn:Hc;
    [|reflexivity].
  apply firstCategory_first in Hc.
  destruct Hc as [before [kws [after [Heq _]]]].
  assert (Hin : In c (map fst ticketKeywords)).
  { rewrite Heq. rewrite map_app. apply in_or_app. right. left. reflexivity. }
  simpl in Hin.
  repeat (destruct Hin as [<-|Hin]; [reflexivity|]). contradiction.
Qed.

(** *** Offer, then confirmation *)

Lemma take_all n s : String.length s <= n -> take n s = s.
Proof.
  revert s. induction n as [|n IH]; intros s H.
  - destruct s; [reflexivity|simpl in H; lia].
  - destruct s as [|c s]; [reflexivity|]. simpl. rewrite IH; [reflexivity|].
    simpl in H. lia.
Qed.

Lemma truthy_take n s : truthy s = true -> truthy (take (S n) s) = true.
Proof. destruct s; [discriminate|reflexivity]. Qed.

Lemma orElse_left a b : truthy a = true -> orElse a b = a.
Proof. intros H. unfold orElse. rewrite H. reflexivity. Qed.

Lemma confirmationInfo_of_offer m2 m u errs :
  truthy m = true ->
  confirmationInfo (mkRequest m2 (Some (offerContext m)) u errs)
  = extractTicketInfo m (detectTicketCategory m).
Proof.
  intros Hm. unfold confirmationInfo, offerContext.
  cbn [req_context contextMessage originalMessage optTruthy contextCategory
       ctx_category optText].
  rewrite Hm.
  rewrite (orElse_left (detectTicketCategory m) (detectTicketCategory m))
    by apply detectTicketCategory_truthy.
  rewrite orElse_left by apply detectTicketCategory_truthy. reflexivity.
Qed.

(** X8: the context sent with any ticket offer, echoed with a confirmation,
    files the request that was offered for: one ticket is created for the
    confirming user, in the category detected in the offered message, with
    that message as description (when it has 10 to 5000 characters) and its
    first 100 characters as title (when it has at least 5); stated for an
    offered message of the ASCII range, where the characters counted and cut
    here are those the code counts and cuts. *)
Theorem offer_then_confirmation_files_request
    env1 req w r w1 env2 m2 u2 errs2 w2 g :
  isAscii (req_message req) = true ->
  route env1 req w = (Ok (json (Success r)), w1) ->
  action r = Some ticket_offer ->
  detectGreeting m2 = false ->
  isTicketConfirmation (trim (toLowerCase m2)) = true ->
  let m := req_message req in
  let data := ticketDataOf (extractTicketInfo m (detectTicketCategory m)) u2 in
  let t := newTicket g data in
  saveOutcome env2 data (ticketStore w2) = inr g ->
  populateOutcome env2 = None ->
  route env2 (mkRequest m2 (conversationContext r) u2 errs2) w2
  = (Ok (json (Success (mkResponse (createdText t) (Some ticket_created)
                          (Some (ticketRef t)) None None))),
     mkWorld (faqData w2) (departmentData w2) (ticketStore w2 ++ [t])%list)
  /\ createdBy t = u2
  /\ category t = detectTicketCategory m
  /\ (10 <= String.length m <= 5000 -> description t = m)
  /\ (5 <= String.length m -> title t = take 100 m).
Proof.
  intros _ Hroute Hoffer Hg2 Hc2 m data t Hsave Hpop.
  destruct (offer_carries_context env1 req w r w1 Hroute Hoffer)
    as [Hctx [_ Hm]].
  fold m in Hctx, Hm.
  split; [|split; [|split; [|split]]].
  - rewrite Hctx. rewrite route_confirmation by assumption. unfold bind.
    pose proof (tryCreate_cases env2
                  (confirmationInfo (mkRequest m2 (Some (offerContext m)) u2 errs2))
                  (req_user (mkRequest m2 (Some (offerContext m)) u2 errs2))
                  initialResponse w2) as H.
    rewrite confirmationInfo_of_offer in H by assumption.
    cbn [req_user] in H. fold data in H. rewrite Hsave in H.
    cbv zeta in H. rewrite Hpop in H. fold t in H.
    rewrite confirmationInfo_of_offer by assumption. cbn [req_user].
    rewrite H. reflexivity.
  - reflexivity.
  - unfold t, data, ticketDataOf, extractTicketInfo.
    cbn [newTicket category data_category info_category].
    apply orElse_left. apply detectTicketCategory_truthy.
  - intros [Hlo Hhi]. unfold t, data, ticketDataOf, extractTicketInfo.
    cbn [newTicket description data_description info_description info_title].
    rewrite (orElse_left m _ Hm). rewrite (orElse_left m _ Hm).
    rewrite (take_all 5000 m Hhi).
    destruct (String.length m <? 10) eqn:Hlt; [|reflexivity].
    apply Nat.ltb_lt in Hlt. lia.
  - intros Hlo. unfold t, data, ticketDataOf, extractTicketInfo.
    cbn [newTicket title data_title info_title].
    rewrite (orElse_left (take 100 m)) by (apply truthy_take; exact Hm).
    rewrite (take_all 200 (take 100 m))
      by (rewrite length_take; lia).
    destruct (String.length (take 100 m) <? 5) eqn:Hlt; [|reflexivity].
    apply Nat.ltb_lt in Hlt. rewrite length_take in Hlt. lia.
Qed.

Lemma offer_then_confirmation_files_request_witness :
  let m := "I have a problem with my enrollment this term" in
  let data := ticketDataOf (extractTicketInfo m (detectTicketCategory m)) 7 in
  let t := newTicket (sampleGenerated data []) data in
  route (sampleEnv 9)
    (mkRequest "create ticket"
       (Some (mkContext (Some m) (Some (detectTicketCategory m)))) 7 [])
    (sampleWorld [])
  = (Ok (json (Success (mkResponse (createdText t) (Some ticket_created)
                          (Some (ticketRef t)) None None))),
     mkWorld [gradesFaq] [cashier; registrar] [t])
  /\ createdBy t = 7
  /\ category t = "Subject Enrollment"
  /\ description t = m.
Proof.
  intros m data t.
  destruct (offer_then_confirmation_files_request (sampleEnv 13)
              (mkRequest m None 7 []) (sampleWorld [])
              (mkResponse needsTicketText (Some ticket_offer) None None
                 (Some (mkContext (Some m) (Some (detectTicketCategory m)))))
              (sampleWorld []) (sampleEnv 9) "create ticket" 7 [] (sampleWorld [])
              (sampleGenerated data []))
    as [Hroute [Hu [Hcat [Hdesc _]]]].
  - vm_compute. reflexivity.
  - vm_compute. reflexivity.
  - reflexivity.
  - vm_compute. reflexivity.
  - vm_compute. reflexivity.
  - reflexivity.
  - reflexivity.
  - split; [exact Hroute|]. split; [exact Hu|]. split; [exact Hcat|].
    apply Hdesc. vm_compute. split; repeat constructor.
Defined.

(** *** What a status inquiry shows *)

Lemma findTickets_sound u number store t :
  In t (findTickets u number store) ->
  In t store /\ ownedBy u t
  /\ (forall n, number = Some n -> ticketNumber t = n).
Proof.
  unfold findTickets. intros H.
  assert (Hin : In t (filter (matchesQuery u number) store)).
  { apply (Permutation_in t (Permutation_sym (sortNewestFirst_perm _))).
    rewrite <- (firstn_skipn 10 (sortNewestFirst _)).
    apply in_or_app. left. exact H. }
  apply filter_In in Hin. destruct Hin as [Hstore Hq].
  unfold matchesQuery, isCreatedBy in Hq.
  apply andb_true_iff in Hq. destruct Hq as [Hu Hn].
  split; [exact Hstore|]. split; [apply Nat.eqb_eq; exact Hu|].
  intros n ->. apply String.eqb_eq. exact Hn.
Qed.

(** X9: whatever the request, the tickets listed in an answer, and the
    tickets its text is formatted from, are tickets of the store that the
    caller created; such an answer has action [ticket_status], and the world
    is unchanged. *)
Theorem status_shows_only_own_tickets env req w r w' shown :
  route env req w = (Ok (json (Success r)), w') ->
  tickets r = Some shown ->
  exists found number,
    Forall (fun t => In t (ticketStore w) /\ ownedBy (req_user req) t) found
    /\ shown = map ticketSummary found
    /\ text r = formatTicketStatus env found number
    /\ action r = Some ticket_status
    /\ w' = w.
Proof.
  route_cases env req w.
  - intros H. injection H as <- <-. discriminate.
  - unfold bind.
    destruct (tryCreate_response env (confirmationInfo req) (req_user req) w)
      as [r0 [w0 [H0 [_ [_ [Hnone _]]]]]].
    rewrite H0. unfold ret. intros H. injection H as <- <-. intros Hshown.
    rewrite Hnone in Hshown. discriminate Hshown.
  - destruct (hasCue departmentIndicators (req_message req));
      intros H; injection H as <- <-; discriminate.
  - destruct (hasCue faqIndicators (req_message req));
      intros H; injection H as <- <-; discriminate.
  - destruct (detectTicketStatusInquiry _).
    + unfold bind.
      destruct (statusBranch_response env (req_message req) (req_user req) w)
        as [r0 [H0 [_ [_ Hshape]]]].
      rewrite H0. unfold ret. intros H. injection H as <- <-. intros Hshown.
      destruct Hshape as [Hnone|[_ Hfound]];
        [rewrite Hnone in Hshown; discriminate Hshown|].
      cbv zeta in Hfound. destruct Hfound as [Ht [Ha Htext]].
      exists (findTickets (req_user req)
                (if optTruthy (extractTicketNumber (req_message req))
                 then extractTicketNumber (req_message req) else None)
                (ticketStore w)),
             (optTruthy (extractTicketNumber (req_message req))).
      split; [|split; [|split; [|split]]].
      * apply Forall_forall. intros t Hin.
        apply findTickets_sound in Hin. destruct Hin as [Hs [Ho _]].
        split; [exact Hs|exact Ho].
      * rewrite Ht in Hshown. injection Hshown as <-. reflexivity.
      * exact Htext.
      * exact Ha.
      * reflexivity.
    + destruct (hasCue ticketIndicators (req_message req));
        intros H; injection H as <- <-; discriminate.
Qed.

Lemma status_shows_only_own_tickets_witness :
  exists found number,
    Forall (fun t => In t (ticketStore (sampleWorld (sampleTicket 8 20 :: twelveTickets)))
                     /\ ownedBy 8 t) found
    /\ [ticketSummary (sampleTicket 8 20)] = map ticketSummary found
    /\ text (mkResponse
               (formatTicketStatus (sampleEnv 9) [sampleTicket 8 20] false)
               (Some ticket_status) None
               (Some [ticketSummary (sampleTicket 8 20)]) None)
       = formatTicketStatus (sampleEnv 9) found number
    /\ Some ticket_status = Some ticket_status
    /\ sampleWorld (sampleTicket 8 20 :: twelveTickets)
       = sampleWorld (sampleTicket 8 20 :: twelveTickets).
Proof.
  apply (status_shows_only_own_tickets (sampleEnv 9)
           (mkRequest "show ticket" None 8 [])
           (sampleWorld (sampleTicket 8 20 :: twelveTickets))
           (mkResponse
              (formatTicketStatus (sampleEnv 9) [sampleTicket 8 20] false)
              (Some ticket_status) None
              (Some [ticketSummary (sampleTicket 8 20)]) None)
           (sampleWorld (sampleTicket 8 20 :: twelveTickets))
           [ticketSummary (sampleTicket 8 20)]).
  - vm_compute. reflexivity.
  - reflexivity.
Defined.

(** The detail view, written out. *)
Lemma ticketDetail_text env t :
  let newline := String (ascii_of_nat 10) EmptyString in
  let rejection :=
    match resolution t with Some r => rejectionReason r | None => None end in
  let notes :=
    match resolution t with Some r => resolutionNotes r | None => None end in
  ticketDetail env t
  = "Here's the status of your ticket:" ++ newline ++ newline
    ++ lookupOr (status t) statusEmoji "📋"
    ++ " **Ticket #" ++ ticketNumber t ++ "**" ++ newline
    ++ "📝 Title: " ++ title t ++ newline
    ++ "📊 Status: " ++ status t ++ newline
    ++ lookupOr (priority t) priorityEmoji "🟡"
    ++ " Priority: " ++ priority t ++ newline
    ++ "📁 Category: " ++ category t ++ newline
    ++ "📅 Created: " ++ longDate env (createdAt t) ++ newline
    ++ (match assignedTo t with
        | Some _ => "👤 Assigned to: undefined" ++ newline
        | None => EmptyString
        end)
    ++ (if String.eqb (status t) "Rejected" && optTruthy rejection
        then newline ++ "❌ Rejection Reason: " ++ optText rejection ++ newline
        else EmptyString)
    ++ (if String.eqb (status t) "Completed" && optTruthy notes
        then newline ++ "✅ Resolution: " ++ optText notes ++ newline
        else EmptyString)
    ++ newline ++ "You can view full details in the Tickets section.".
Proof.
  intros newline rejection notes.
  unfold ticketDetail, shownValue, firstNameOf, usernameOf, nl.
  fold newline. cbv zeta. fold rejection. fold notes. cbn [optTruthy].
  destruct (assignedTo t);
    destruct (String.eqb (status t) "Rejected" && optTruthy rejection);
    destruct (String.eqb (status t) "Completed" && optTruthy notes);
    rewrite !append_assoc; reflexivity.
Qed.

(** X10: a status inquiry that names a ticket number (reaching stage 5, the
    query succeeding) is answered with the detail view of the ticket when the
    caller owns exactly one ticket with that number, the number being the
    upper-cased token read from the utterance. The view gives number, title,
    status, priority, category and date of creation, the rejection reason of
    a rejected ticket and the resolution of a completed one; for an assigned
    ticket its line reads "Assigned to: undefined", the query resolving the
    creator only. *)
Theorem status_detail_for_one_ticket env req w number t :
  detectGreeting (req_message req) = false ->
  isTicketConfirmation (trim (toLowerCase (req_message req))) = false ->
  findDepartmentByService (departmentData w) (req_message req) = None ->
  optTruthy (matchFAQ (faqData w) (req_message req)) = false ->
  detectTicketStatusInquiry (trim (toLowerCase (req_message req))) = true ->
  findOutcome env = None ->
  extractTicketNumber (req_message req) = Some number ->
  truthy number = true ->
  filter (fun x => (createdBy x =? req_user req)
                   && String.eqb (ticketNumber x) number) (ticketStore w) = [t] ->
  let newline := String (ascii_of_nat 10) EmptyString in
  let rejection :=
    match resolution t with Some r => rejectionReason r | None => None end in
  let notes :=
    match resolution t with Some r => resolutionNotes r | None => None end in
  route env req w
  = (Ok (mkHttp 200
           (Success
              (mkResponse
                 ("Here's the status of your ticket:" ++ newline ++ newline
                  ++ lookupOr (status t) statusEmoji "📋"
                  ++ " **Ticket #" ++ ticketNumber t ++ "**" ++ newline
                  ++ "📝 Title: " ++ title t ++ newline
                  ++ "📊 Status: " ++ status t ++ newline
                  ++ lookupOr (priority t) priorityEmoji "🟡"
                  ++ " Priority: " ++ priority t ++ newline
                  ++ "📁 Category: " ++ category t ++ newline
                  ++ "📅 Created: " ++ longDate env (createdAt t) ++ newline
                  ++ (match assignedTo t with
                      | Some _ => "👤 Assigned to: undefined" ++ newline
                      | None => EmptyString
                      end)
                  ++ (if String.eqb (status t) "Rejected" && optTruthy rejection
                      then newline ++ "❌ Rejection Reason: " ++ optText rejection
                           ++ newline
                      else EmptyString)
                  ++ (if String.eqb (status t) "Completed" && optTruthy notes
                      then newline ++ "✅ Resolution: " ++ optText notes ++ newline
                      else EmptyString)
                  ++ newline ++ "You can view full details in the Tickets section.")
                 (Some ticket_status) None
                 (Some [mkTicketSummary (_id t) (ticketNumber t) (title t)
                          (status t) (priority t) (category t)])
                 None))), w).
Proof.
  intros Hg Hc Hd Hf Hs Hfind Hnum Htruthy Hone newline rejection notes.
  rewrite route_status by assumption. rewrite Hnum.
  cbn [optTruthy optText]. rewrite Htruthy.
  unfold findTickets.
  replace (filter (matchesQuery (req_user req) (Some number)) (ticketStore w))
    with [t] by (rewrite <- Hone; reflexivity).
  cbn [sortNewestFirst fold_right insertNewest firstn List.length Nat.eqb
       formatTicketStatus andb map].
  rewrite ticketDetail_text. reflexivity.
Qed.

Lemma status_detail_for_one_ticket_witness :
  let newline := String (ascii_of_nat 10) EmptyString in
  let assigned :=
    mkTicket "id40" "TICKET-20240101-40" "Transcript for a job application"
      "I need an OTR" "OTR Request" "High" "Rejected" 7 (Some 3) emptyDetails
      (Some (mkResolution (Some "Unpaid fees") None)) 40 in
  route (sampleEnv 9) (mkRequest "what is the status of #ticket-20240101-40" None 7 [])
    (sampleWorld (assigned :: twelveTickets))
  = (Ok (mkHttp 200
           (Success
              (mkResponse
                 ("Here's the status of your ticket:" ++ newline ++ newline
                  ++ "❌ **Ticket #TICKET-20240101-40**" ++ newline
                  ++ "📝 Title: Transcript for a job application" ++ newline
                  ++ "📊 Status: Rejected" ++ newline
                  ++ "🟠 Priority: High" ++ newline
                  ++ "📁 Category: OTR Request" ++ newline
                  ++ "📅 Created: Jan 40, 2024" ++ newline
                  ++ "👤 Assigned to: undefined" ++ newline
                  ++ newline ++ "❌ Rejection Reason: Unpaid fees" ++ newline
                  ++ newline ++ "You can view full details in the Tickets section.")
                 (Some ticket_status) None
                 (Some [mkTicketSummary "id40" "TICKET-20240101-40"
                          "Transcript for a job application" "Rejected" "High"
                          "OTR Request"])
                 None))),
     sampleWorld (assigned :: twelveTickets)).
Proof.
  intros newline assigned.
  exact (status_detail_for_one_ticket (sampleEnv 9)
           (mkRequest "what is the status of #ticket-20240101-40" None 7 [])
           (sampleWorld (assigned :: twelveTickets)) "TICKET-20240101-40" assigned
           eq_refl eq_refl eq_refl eq_refl eq_refl eq_refl eq_refl eq_refl eq_refl).
Defined.

(** *** The FAQ scan *)








(** ** The matcher is sound *)

Lemma matchRe_sound ic r :
  forall s c k res,
    matchRe ic r s c k = Some res ->
    exists s' c', matches ic r s c s' c' /\ k s' c' = Some res.
Proof.
  induction r as [|a|f| | |r1 IH1 r2 IH2|r1 IH1 r2 IH2|greedy r1 IH1|n r1 IH1];
    intros s c k res H; cbn [matchRe] in H.
  - exists s, c. cbn. auto.
  - destruct s as [|b s]; [discriminate|].
    destruct (charMatches ic a b) eqn:Hm; [|discriminate].
    exists s, c. split; [|exact H]. cbn. exists b. auto.
  - destruct s as [|b s]; [discriminate|].
    destruct (classMatches ic f b) eqn:Hm; [|discriminate].
    exists s, c. split; [|exact H]. cbn. exists b. auto.
  - destruct s as [|b s]; [discriminate|].
    destruct (isLineTerminator b) eqn:Hm; [discriminate|].
    exists s, c. split; [|exact H]. cbn. exists b. auto.
  - destruct s as [|b s]; [|discriminate].
    exists EmptyString, c. split; [|exact H]. cbn. auto.
  - apply IH1 in H. destruct H as [s1 [c1 [H1 H]]].
    apply IH2 in H. destruct H as [s' [c' [H2 H]]].
    exists s', c'. split; [|exact H]. cbn. exists s1, c1. auto.
  - destruct (matchRe ic r1 s c k) eqn:Hfirst.
    + injection H as <-. apply IH1 in Hfirst.
      destruct Hfirst as [s' [c' [H1 Hk]]].
      exists s', c'. split; [|exact Hk]. cbn. auto.
    + apply IH2 in H. destruct H as [s' [c' [H2 Hk]]].
      exists s', c'. split; [|exact Hk]. cbn. auto.
  - cbn [matches].
    revert H. generalize (String.length s) at 1. intros fuel. revert s c.
    induction fuel as [|fuel IHf]; intros s c H.
    + exists s, c. split; [constructor|exact H].
    + simpl in H. destruct greedy.
      * match type of H with
        | context [matchRe ic r1 s c ?k'] =>
            destruct (matchRe ic r1 s c k') as [res'|] eqn:He
        end.
        -- injection H as <-. apply IH1 in He.
           destruct He as [s1 [c1 [Hstep Hrest]]].
           destruct (String.length s1 <? String.length s); [|discriminate].
           apply IHf in Hrest. destruct Hrest as [s' [c' [Hrep Hk]]].
           exists s', c'. split; [|exact Hk].
           apply (repeated_more _ s c s1 c1 s' c' Hstep Hrep).
        -- exists s, c. split; [constructor|exact H].
      * destruct (k s c) as [res'|] eqn:Hk0.
        -- injection H as <-. exists s, c. split; [constructor|exact Hk0].
        -- apply IH1 in H.
           destruct H as [s1 [c1 [Hstep Hrest]]].
           destruct (String.length s1 <? String.length s); [|discriminate].
           apply IHf in Hrest. destruct Hrest as [s' [c' [Hrep Hk]]].
           exists s', c'. split; [|exact Hk].
           apply (repeated_more _ s c s1 c1 s' c' Hstep Hrep).
  - apply IH1 in H. destruct H as [s' [c1 [H1 Hk]]].
    exists s', ((n, consumed s s') :: c1). split; [|exact Hk].
    cbn. exists c1. auto.
Qed.

Lemma matches_suffix ic r :
  forall s c s' c', matches ic r s c s' c' -> exists x, s = x ++ s'.
Proof.
  induction r as [|a|f| | |r1 IH1 r2 IH2|r1 IH1 r2 IH2|greedy r1 IH1|n r1 IH1];
    intros s c s' c' H; cbn [matches] in H.
  - destruct H as [-> _]. exists EmptyString. reflexivity.
  - destruct H as [b [-> _]]. exists (String b EmptyString). reflexivity.
  - destruct H as [b [-> _]]. exists (String b EmptyString). reflexivity.
  - destruct H as [b [-> _]]. exists (String b EmptyString). reflexivity.
  - destruct H as [-> [-> _]]. exists EmptyString. reflexivity.
  - destruct H as [s1 [c1 [H1 H2]]].
    apply IH1 in H1. apply IH2 in H2.
    destruct H1 as [x ->]. destruct H2 as [y ->].
    exists (x ++ y). symmetry. apply append_assoc.
  - destruct H as [H|H]; [apply IH1 in H|apply IH2 in H]; exact H.
  - induction H as [s c|s c s1 c1 s' c' Hstep Hrest IH].
    + exists EmptyString. reflexivity.
    + apply IH1 in Hstep. destruct Hstep as [x ->]. destruct IH as [y ->].
      exists (x ++ y). symmetry. apply append_assoc.
  - destruct H as [c1 [H _]]. apply IH1 in H. exact H.
Qed.

Lemma consumed_app x s' : consumed (x ++ s') s' = x.
Proof.
  unfold consumed. rewrite length_append.
  replace (String.length x + String.length s' - String.length s')
    with (String.length x) by lia.
  induction x as [|a x IH]; simpl.
  - destruct s'; reflexivity.
  - rewrite IH. reflexivity.
Qed.

Lemma matchHere_sound p s res :
  matchHere p s = Some res ->
  exists s' c1,
    matches (ignoreCase p) (body p) s [] s' c1
    /\ res = (0, consumed s s') :: c1.
Proof.
  unfold matchHere. intros H. apply matchRe_sound in H.
  destruct H as [s' [c' [Hm Hk]]]. injection Hk as <-.
  cbn [matches] in Hm. destruct Hm as [c1 [Hm ->]].
  exists s', c1. auto.
Qed.

Lemma searchFrom_sound p s res :
  searchFrom p s = Some res ->
  exists pre rest, s = pre ++ rest /\ matchHere p rest = Some res.
Proof.
  induction s as [|a s IH]; cbn [searchFrom].
  - destruct (matchHere p EmptyString) eqn:Hm; [|discriminate].
    intros H. injection H as <-. exists EmptyString, EmptyString. auto.
  - destruct (matchHere p (String a s)) eqn:Hm.
    + intros H. injection H as <-. exists EmptyString, (String a s). auto.
    + intros H. apply IH in H. destruct H as [pre [rest [-> H]]].
      exists (String a pre), rest. auto.
Qed.

Lemma allChars_app p a b :
  allChars p (a ++ b) = allChars p a && allChars p b.
Proof.
  induction a as [|c a IH]; [reflexivity|].
  simpl. rewrite IH. apply andb_assoc.
Qed.

Lemma mapChars_app f a b : mapChars f (a ++ b) = mapChars f a ++ mapChars f b.
Proof.
  induction a as [|c a IH]; [reflexivity|]. simpl. rewrite IH. reflexivity.
Qed.

Lemma allChars_mapChars (p q : ascii -> bool) f s :
  (forall c, p c = true -> q (f c) = true) ->
  allChars p s = true -> allChars q (mapChars f s) = true.
Proof.
  intros Hpq. induction s as [|c s IH]; [reflexivity|].
  simpl. intros H. apply andb_true_iff in H. destruct H as [Hc Hs].
  rewrite (Hpq c Hc). apply IH. exact Hs.
Qed.

(** A run of characters of one class. *)
Lemma repeated_class ic f s c s' c' :
  repeated (matches ic (RClass f)) s c s' c' ->
  c' = c /\ exists x, s = x ++ s' /\ allChars (classMatches ic f) x = true.
Proof.
  intros H. induction H as [s c|s c s1 c1 s' c' Hstep Hrest IH].
  - split; [reflexivity|]. exists EmptyString. auto.
  - cbn [matches] in Hstep. destruct Hstep as [b [-> [Hb ->]]].
    destruct IH as [-> [x [-> Hx]]]. split; [reflexivity|].
    exists (String b x). split; [reflexivity|]. simpl. rewrite Hb. exact Hx.
Qed.

Lemma plus_class ic greedy f s c s' c' :
  matches ic (RPlus greedy (RClass f)) s c s' c' ->
  c' = c
  /\ exists x, s = x ++ s' /\ truthy x = true
               /\ allChars (classMatches ic f) x = true.
Proof.
  unfold RPlus. cbn [matches]. intros [s1 [c1 [[b [-> [Hb ->]]] Hrest]]].
  apply repeated_class in Hrest. destruct Hrest as [-> [x [-> Hx]]].
  split; [reflexivity|]. exists (String b x).
  split; [reflexivity|]. split; [reflexivity|]. simpl. rewrite Hb. exact Hx.
Qed.

(** A literal, read without regard to case. *)
Lemma literal_matches p :
  forall s c s' c',
    matches true (RLit p) s c s' c' ->
    c' = c /\ exists x, s = x ++ s' /\ toUpperCase x = toUpperCase p.
Proof.
  induction p as [|a p IH]; intros s c s' c' H; cbn [RLit matches] in H.
  - destruct H as [-> ->]. split; [reflexivity|]. exists EmptyString. auto.
  - destruct H as [s1 [c1 [[b [-> [Hb ->]]] Hrest]]].
    apply IH in Hrest. destruct Hrest as [-> [x [-> Hx]]].
    split; [reflexivity|]. exists (String b x). split; [reflexivity|].
    unfold toUpperCase in *. simpl. rewrite Hx.
    unfold charMatches in Hb. apply Ascii.eqb_eq in Hb. rewrite Hb. reflexivity.
Qed.

Lemma ticketChar_upper b :
  classMatches true ticketChar b = true -> ticketChar (upperChar b) = true.
Proof.
  destruct b as [[] [] [] [] [] [] [] []]; vm_compute; intros H;
    first [reflexivity | discriminate H].
Qed.

Lemma truthy_mapChars f s : truthy (mapChars f s) = truthy s.
Proof. destruct s; reflexivity. Qed.

Lemma truthy_app_r a b : truthy b = true -> truthy (a ++ b) = true.
Proof. destruct a; [auto|reflexivity]. Qed.

(** X13: a ticket number read from an utterance is never empty, consists of
    digits, upper-case letters and dashes only, and is the upper-cased copy
    of a piece of the utterance. *)
Theorem extracted_ticket_number_shape m n :
  extractTicketNumber m = Some n ->
  truthy n = true
  /\ allChars ticketChar n = true
  /\ exists pre x post, m = pre ++ x ++ post /\ n = toUpperCase x.
Proof.
  unfold extractTicketNumber, exec. cbn [anchored ticketPattern numberPattern].
  destruct (searchFrom ticketPattern m) as [res|] eqn:Hstrict.
  - intros H. injection H as <-.
    apply searchFrom_sound in Hstrict.
    destruct Hstrict as [pre [rest [-> Hhere]]].
    apply matchHere_sound in Hhere.
    destruct Hhere as [s' [c1 [Hm ->]]].
    cbn [ignoreCase body ticketPattern matches] in Hm.
    destruct Hm as [s1 [c2 [Hlit Hrun]]].
    apply literal_matches in Hlit. destruct Hlit as [-> [l [-> Hl]]].
    apply plus_class in Hrun. destruct Hrun as [-> [run [-> [Hne Hall]]]].
    unfold group. cbn [capture Nat.eqb].
    rewrite <- append_assoc. rewrite consumed_app.
    split; [|split].
    + unfold toUpperCase. rewrite truthy_mapChars. apply truthy_app_r. exact Hne.
    + unfold toUpperCase. rewrite mapChars_app, allChars_app.
      fold (toUpperCase l). rewrite Hl. apply andb_true_iff. split.
      * vm_compute. reflexivity.
      * apply (allChars_mapChars (classMatches true ticketChar)); [|exact Hall].
        exact ticketChar_upper.
    + exists pre, (l ++ run), s'. split; [|reflexivity].
      rewrite append_assoc. reflexivity.
  - destruct (searchFrom numberPattern m) as [res|] eqn:Hloose; [|discriminate].
    intros H. injection H as <-.
    apply searchFrom_sound in Hloose.
    destruct Hloose as [pre [rest [-> Hhere]]].
    apply matchHere_sound in Hhere.
    destruct Hhere as [s' [c1 [Hm ->]]].
    cbn [ignoreCase body numberPattern] in Hm.
    cbn [matches] in Hm.
    destruct Hm as [s1 [c2 [Hhead [s2 [c3 [Hws [c4 [Hrun ->]]]]]]]].
    assert (Hhead' : exists a, rest = a ++ s1).
    { apply (matches_suffix true (RAlt (RLit "ticket") (RChar hash)) rest [] s1 c2).
      exact Hhead. }
    destruct Hhead' as [a ->].
    apply repeated_class in Hws. destruct Hws as [-> [ws [-> _]]].
    change (exists s0 c0,
              matches true (RClass ticketChar) s2 c2 s0 c0
              /\ repeated (matches true (RClass ticketChar)) s0 c0 s' c4)
      with (matches true (RPlus true (RClass ticketChar)) s2 c2 s' c4) in Hrun.
    apply plus_class in Hrun. destruct Hrun as [-> [run [-> [Hne Hall]]]].
    unfold group. cbn [capture Nat.eqb]. rewrite consumed_app.
    split; [|split].
    + unfold toUpperCase. rewrite truthy_mapChars. exact Hne.
    + apply (allChars_mapChars (classMatches true ticketChar)); [|exact Hall].
      exact ticketChar_upper.
    + exists (pre ++ a ++ ws), run, s'. split; [|reflexivity].
      rewrite !append_assoc. reflexivity.
Qed.

Lemma extracted_ticket_number_shape_witness :
  truthy "TICKET-20240101-ABC" = true
  /\ allChars ticketChar "TICKET-20240101-ABC" = true
  /\ exists pre x post,
       "check ticket Ticket-20240101-abc please" = pre ++ x ++ post
       /\ "TICKET-20240101-ABC" = toUpperCase x.
Proof.
  apply (extracted_ticket_number_shape "check ticket Ticket-20240101-abc please"
           "TICKET-20240101-ABC").
  vm_compute. reflexivity.
Defined.

(** *** The greeting test, both ways *)

Lemma alternatives_match ic ws :
  forall s c s' c',
    matches ic (lits ws) s c s' c' ->
    exists w, In w ws /\ matches ic (RLit w) s c s' c'.
Proof.
  unfold lits. induction ws as [|w ws IH]; intros s c s' c' H.
  - cbn in H. destruct H as [b [_ [Hb _]]].
    unfold classMatches in Hb. destruct ic; discriminate.
  - destruct ws as [|w' ws].
    + exists w. split; [left; reflexivity|exact H].
    + change (RAlts (map RLit (w :: w' :: ws)))
        with (RAlt (RLit w) (RAlts (map RLit (w' :: ws)))) in H.
      cbn [matches] in H. destruct H as [H|H].
      * exists w. split; [left; reflexivity|exact H].
      * apply IH in H. destruct H as [w0 [Hin H]].
        exists w0. split; [right; exact Hin|exact H].
Qed.

Lemma lower_of_upper a : notUpper a = true -> lowerChar (upperChar a) = a.
Proof.
  destruct a as [[] [] [] [] [] [] [] []]; vm_compute; intros H;
    first [reflexivity | discriminate H].
Qed.

Lemma notUpper_lowerChar a : notUpper (lowerChar a) = true.
Proof.
  destruct a as [[] [] [] [] [] [] [] []]; vm_compute; reflexivity.
Qed.

Lemma same_upper_same_text x :
  forall p, toUpperCase x = toUpperCase p ->
            allChars notUpper x = true -> allChars notUpper p = true -> x = p.
Proof.
  unfold toUpperCase.
  induction x as [|a x IH]; intros [|b p] H Hx Hp; simpl in *;
    try reflexivity; try discriminate.
  apply andb_true_iff in Hx. apply andb_true_iff in Hp.
  destruct Hx as [Ha Hx]. destruct Hp as [Hb Hp].
  injection H as Hab Hrest.
  rewrite <- (lower_of_upper a Ha), <- (lower_of_upper b Hb), Hab.
  rewrite (IH p Hrest Hx Hp). reflexivity.
Qed.

Lemma allChars_toLowerCase s : allChars notUpper (toLowerCase s) = true.
Proof.
  induction s as [|a s IH]; [reflexivity|].
  simpl. rewrite notUpper_lowerChar. exact IH.
Qed.

Lemma allChars_rev p s : allChars p (rev s) = allChars p s.
Proof.
  induction s as [|a s IH]; [reflexivity|].
  simpl. rewrite allChars_app, IH. simpl.
  rewrite andb_true_r. apply andb_comm.
Qed.

Lemma allChars_trimStart p s :
  allChars p s = true -> allChars p (trimStart s) = true.
Proof.
  induction s as [|a s IH]; [reflexivity|].
  simpl. intros H. destruct (isSpace a); [|exact H].
  apply andb_true_iff in H. apply IH. apply H.
Qed.

Lemma allChars_trim p s : allChars p s = true -> allChars p (trim s) = true.
Proof.
  intros H. unfold trim, trimEnd.
  rewrite allChars_rev. apply allChars_trimStart.
  rewrite allChars_rev. apply allChars_trimStart. exact H.
Qed.

Lemma test_anchored_alternatives_inv ws t :
  Forall (fun w => allChars notUpper w = true) ws ->
  allChars notUpper t = true ->
  test (Pattern true true (RGroup 1 (lits ws))) t = true ->
  exists w, In w ws /\ startsWith t w = true.
Proof.
  intros Hws Ht H. unfold test, exec in H. cbn [anchored] in H.
  destruct (matchHere (Pattern true true (RGroup 1 (lits ws))) t) as [res|] eqn:Hm;
    [|discriminate].
  apply matchHere_sound in Hm. destruct Hm as [s' [c1 [Hm _]]].
  cbn [ignoreCase body matches] in Hm. destruct Hm as [c2 [Hm _]].
  apply alternatives_match in Hm. destruct Hm as [w [Hin Hm]].
  apply literal_matches in Hm. destruct Hm as [_ [x [-> Hx]]].
  exists w. split; [exact Hin|].
  rewrite allChars_app in Ht. apply andb_true_iff in Ht. destruct Ht as [Hxl _].
  rewrite Forall_forall in Hws.
  rewrite (same_upper_same_text x w Hx Hxl (Hws w Hin)).
  apply startsWith_app.
Qed.

(** X14: an utterance of the ASCII range is taken for a greeting exactly
    when its case-folded, trimmed text begins with one of the eleven greeting
    prefixes; what follows the prefix does not matter, so "history" and
    "hire" are greetings too. *)
Theorem greeting_iff_prefix m :
  isAscii m = true ->
  (detectGreeting m = true <->
   exists p rest,
     In p ["hi"; "hello"; "hey"; "greetings"; "good morning"; "good afternoon";
           "good evening"; "good day"; "hi there"; "hello there"; "hey there"]
     /\ trim (toLowerCase m) = p ++ rest)
  /\ detectGreeting "history of my grades" = true.
Proof.
  intros _.
  split; [|vm_compute; reflexivity].
  split.
  - unfold detectGreeting, greetingPatterns, some. cbn [existsb].
    intros H.
    assert (Ht : allChars notUpper (trim (toLowerCase m)) = true).
    { apply allChars_trim. apply allChars_toLowerCase. }
    apply orb_true_iff in H. destruct H as [H|H].
    + apply test_anchored_alternatives_inv in H; [|repeat constructor|exact Ht].
      destruct H as [p [Hin Hp]].
      destruct (startsWith_split _ _ Hp) as [rest Hrest].
      exists p, rest. split; [|exact Hrest].
      simpl in Hin. simpl. tauto.
    + rewrite orb_false_r in H.
      apply test_anchored_alternatives_inv in H; [|repeat constructor|exact Ht].
      destruct H as [p [Hin Hp]].
      destruct (startsWith_split _ _ Hp) as [rest Hrest].
      exists p, rest. split; [|exact Hrest].
      simpl in Hin. simpl. tauto.
  - intros [p [rest [Hin Hp]]]. apply (detectGreeting_prefix m p Hin).
    rewrite Hp. apply startsWith_app.
Qed.

Lemma greeting_iff_prefix_witness :
  detectGreeting "  Hire me a tutor" = true
  /\ detectGreeting "history of my grades" = true.
Proof.
  destruct (greeting_iff_prefix "  Hire me a tutor" eq_refl) as [[_ Hif] Hexample].
  split; [|exact Hexample].
  apply Hif. exists "hi", "re me a tutor". split; [simpl; tauto|reflexivity].
Defined.

(** *** The fields read from a message *)

Lemma exec_sound p s res :
  anchored p = false ->
  exec p s = Some res ->
  exists pre rest s' c1,
    s = pre ++ rest
    /\ matches (ignoreCase p) (body p) rest [] s' c1
    /\ res = (0, consumed rest s') :: c1.
Proof.
  intros Ha H. unfold exec in H. rewrite Ha in H.
  apply searchFrom_sound in H. destruct H as [pre [rest [-> H]]].
  apply matchHere_sound in H. destruct H as [s' [c1 [Hm ->]]].
  exists pre, rest, s', c1. auto.
Qed.

Lemma digit_class b : classMatches true isDigit b = true -> isDigit b = true.
Proof.
  destruct b as [[] [] [] [] [] [] [] []]; vm_compute; intros H;
    first [reflexivity | discriminate H].
Qed.

Lemma upperOrDigit_upper b :
  classMatches true upperOrDigit b = true -> upperOrDigit (upperChar b) = true.
Proof.
  destruct b as [[] [] [] [] [] [] [] []]; vm_compute; intros H;
    first [reflexivity | discriminate H].
Qed.

Lemma allChars_weaken (p q : ascii -> bool) s :
  (forall c, p c = true -> q c = true) ->
  allChars p s = true -> allChars q s = true.
Proof.
  intros Hpq. induction s as [|c s IH]; [reflexivity|].
  simpl. intros H. apply andb_true_iff in H. destruct H as [Hc Hs].
  rewrite (Hpq c Hc). apply IH. exact Hs.
Qed.

Lemma copies_match m res :
  exec copiesPattern m = Some res ->
  exists digits,
    group 1 res = digits /\ truthy digits = true
    /\ allChars isDigit digits = true /\ includes m digits = true.
Proof.
  intros H. apply exec_sound in H; [|reflexivity].
  destruct H as [pre [rest [s' [c1 [-> [Hm ->]]]]]].
  cbn [ignoreCase body copiesPattern] in Hm. cbn [matches] in Hm.
  destruct Hm as [s1 [c2 [[c0 [Hrun ->]] [s2 [c3 [Hws [c4 [Hword ->]]]]]]]].
  change (exists s0 c5,
            matches true (RClass isDigit) rest [] s0 c5
            /\ repeated (matches true (RClass isDigit)) s0 c5 s1 c0)
    with (matches true (RPlus true (RClass isDigit)) rest [] s1 c0) in Hrun.
  apply plus_class in Hrun. destruct Hrun as [-> [run [-> [Hne Hall]]]].
  apply repeated_class in Hws. destruct Hws as [-> _].
  apply alternatives_match in Hword. destruct Hword as [w [_ Hword]].
  apply literal_matches in Hword. destruct Hword as [-> _].
  exists run. unfold group. cbn [capture Nat.eqb]. rewrite consumed_app.
  split; [reflexivity|]. split; [exact Hne|]. split.
  - apply (allChars_weaken (classMatches true isDigit)); [exact digit_class|exact Hall].
  - apply includes_middle.
Qed.

Lemma subjectCode_match m res :
  exec subjectCodePattern m = Some res ->
  truthy (toUpperCase (group 1 res)) = true
  /\ allChars upperOrDigit (toUpperCase (group 1 res)) = true.
Proof.
  intros H. apply exec_sound in H; [|reflexivity].
  destruct H as [pre [rest [s' [c1 [-> [Hm ->]]]]]].
  cbn [ignoreCase body subjectCodePattern] in Hm.
  change (matches true
            (RSeq (RAlt (RSeq (RLit "subject")
                           (RSeq (RPlus true (RClass isSpace)) (RLit "code")))
                        (RLit "code"))
               (RSeq (RPlus true (RClass colonOrSpace))
                  (RGroup 1 (RPlus true (RClass upperOrDigit))))) rest [] s' c1)
    with (exists s1 c2,
            matches true
              (RAlt (RSeq (RLit "subject")
                       (RSeq (RPlus true (RClass isSpace)) (RLit "code")))
                    (RLit "code")) rest [] s1 c2
            /\ exists s2 c3,
                 matches true (RPlus true (RClass colonOrSpace)) s1 c2 s2 c3
                 /\ exists c4,
                      matches true (RPlus true (RClass upperOrDigit)) s2 c3 s' c4
                      /\ c1 = (1, consumed s2 s') :: c4) in Hm.
  destruct Hm as [s1 [c2 [_ [s2 [c3 [_ [c4 [Hrun ->]]]]]]]].
  apply plus_class in Hrun. destruct Hrun as [-> [run [-> [Hne Hall]]]].
  unfold group. cbn [capture Nat.eqb]. rewrite consumed_app.
  split.
  - unfold toUpperCase. rewrite truthy_mapChars. exact Hne.
  - apply (allChars_mapChars (classMatches true upperOrDigit)); [|exact Hall].
    exact upperOrDigit_upper.
Qed.

(** X15: the request details read from a message hold only the fields of
    the ticket's category: a copy count and a purpose for "OTR Request", a
    subject code and name for "Subject Enrollment", nothing for any other
    category. A copy count comes from a run of digits of the message, and is
    the value of that run when the value is below 2^53 (the code keeps the
    count in a double); a subject code is a non-empty string of digits and
    upper-case letters. The
    priority is Urgent, High or Normal, and Urgent whenever the message says
    "urgent". *)
Theorem request_details_follow_category m cat :
  let details := info_requestDetails (extractTicketInfo m cat) in
  (cat <> "OTR Request" ->
   numberOfCopies details = None /\ purpose details = None)
  /\ (cat <> "Subject Enrollment" ->
      subjectCode details = None /\ subjectName details = None)
  /\ (forall n, numberOfCopies details = Some n ->
        exists digits, truthy digits = true /\ allChars isDigit digits = true
                       /\ containsText m digits
                       /\ ((parseInt digits < 2 ^ 53)%N -> n = parseInt digits))
  /\ (forall code, subjectCode details = Some code ->
        truthy code = true /\ allChars upperOrDigit code = true)
  /\ In (info_priority (extractTicketInfo m cat)) ["Urgent"; "High"; "Normal"]
  /\ (includes (toLowerCase m) "urgent" = true ->
      info_priority (extractTicketInfo m cat) = "Urgent").
Proof.
  unfold extractTicketInfo. cbv zeta. cbn [info_requestDetails info_priority].
  destruct (String.eqb cat "OTR Request") eqn:Hotr;
    destruct (String.eqb cat "Subject Enrollment") eqn:Hse.
  - apply String.eqb_eq in Hotr. apply String.eqb_eq in Hse.
    rewrite Hotr in Hse. discriminate Hse.
  - apply String.eqb_eq in Hotr.
    split; [intros Hne; contradiction|].
    split.
    { intros _. destruct (exec copiesPattern m); destruct (exec purposePattern m);
        cbn; auto. }
    split.
    { intros n. destruct (exec copiesPattern m) as [res|] eqn:Hc;
        destruct (exec purposePattern m); cbn; intros Hn;
          try discriminate Hn; injection Hn as <-;
          destruct (copies_match m res Hc) as [digits [Hg [Ht [Ha Hi]]]];
          exists digits; rewrite Hg; apply includes_iff in Hi; auto. }
    split.
    { intros code. destruct (exec copiesPattern m); destruct (exec purposePattern m);
        cbn; discriminate. }
    split.
    { destruct (_ || _ || _); [simpl; tauto|].
      destruct (_ || _); simpl; tauto. }
    intros Hu. rewrite Hu. reflexivity.
  - apply String.eqb_eq in Hse.
    split.
    { intros _. destruct (exec subjectCodePattern m);
        destruct (exec subjectNamePattern m); cbn; auto. }
    split; [intros Hne; contradiction|].
    split.
    { intros n. destruct (exec subjectCodePattern m);
        destruct (exec subjectNamePattern m); cbn; discriminate. }
    split.
    { intros code. destruct (exec subjectCodePattern m) as [res|] eqn:Hc;
        destruct (exec subjectNamePattern m); cbn; intros Hn;
          try discriminate Hn; injection Hn as <-;
          exact (subjectCode_match m res Hc). }
    split.
    { destruct (_ || _ || _); [simpl; tauto|].
      destruct (_ || _); simpl; tauto. }
    intros Hu. rewrite Hu. reflexivity.
  - split; [intros _; cbn; auto|].
    split; [intros _; cbn; auto|].
    split; [intros n; cbn; discriminate|].
    split; [intros code; cbn; discriminate|].
    split.
    { destruct (_ || _ || _); [simpl; tauto|].
      destruct (_ || _); simpl; tauto. }
    intros Hu. rewrite Hu. reflexivity.
Qed.

(** *** A confirmation without context *)

Lemma confirmation_nonempty m :
  isTicketConfirmation (trim (toLowerCase m)) = true -> truthy m = true.
Proof.
  destruct m; [vm_compute; discriminate|reflexivity].
Qed.

(** X20: a confirmation that comes without a context, or with a context
    whose original message is missing or empty, still creates a ticket, and
    the ticket is made of the confirming utterance itself: its category is
    the one detected in the utterance, a title shorter than 5 characters gets
    the prefix "Request from chatbot: " and a description shorter than 10 the
    suffix " (Created via chatbot)". *)
Theorem confirmation_without_context_files_utterance env w m ctx u errs g :
  detectGreeting m = false ->
  isTicketConfirmation (trim (toLowerCase m)) = true ->
  contextMessage ctx = None ->
  let data := ticketDataOf (extractTicketInfo m (detectTicketCategory m)) u in
  let t := newTicket g data in
  saveOutcome env data (ticketStore w) = inr g ->
  populateOutcome env = None ->
  route env (mkRequest m ctx u errs) w
  = (Ok (json (Success (mkResponse (createdText t) (Some ticket_created)
                          (Some (ticketRef t)) None None))),
     mkWorld (faqData w) (departmentData w) (ticketStore w ++ [t])%list)
  /\ category t = detectTicketCategory m
  /\ (String.length m < 5 -> title t = "Request from chatbot: " ++ m)
  /\ (String.length m < 10 -> description t = m ++ " (Created via chatbot)").
Proof.
  intros Hg Hc Hctx data t Hsave Hpop.
  pose proof (confirmation_nonempty m Hc) as Hm.
  assert (Hinfo : confirmationInfo (mkRequest m ctx u errs)
                  = extractTicketInfo m (detectTicketCategory m)).
  { unfold confirmationInfo. cbn [req_context req_message]. rewrite Hctx.
    rewrite orElse_left by apply detectTicketCategory_truthy. reflexivity. }
  split; [|split; [|split]].
  - rewrite route_confirmation by assumption. unfold bind.
    pose proof (tryCreate_cases env (confirmationInfo (mkRequest m ctx u errs))
                  (req_user (mkRequest m ctx u errs)) initialResponse w) as H.
    rewrite Hinfo in H. cbn [req_user] in H. fold data in H.
    rewrite Hsave in H. cbv zeta in H. rewrite Hpop in H. fold t in H.
    rewrite Hinfo. cbn [req_user]. rewrite H. reflexivity.
  - unfold t, data, ticketDataOf, extractTicketInfo.
    cbn [newTicket category data_category info_category].
    apply orElse_left. apply detectTicketCategory_truthy.
  - intros Hlen. unfold t, data, ticketDataOf, extractTicketInfo.
    cbn [newTicket title data_title info_title].
    rewrite (take_all 100 m) by lia. rewrite (orElse_left m _ Hm).
    rewrite (take_all 200 m) by lia.
    apply Nat.ltb_lt in Hlen. rewrite Hlen. reflexivity.
  - intros Hlen. unfold t, data, ticketDataOf, extractTicketInfo.
    cbn [newTicket description data_description info_description info_title].
    rewrite (orElse_left m _ Hm). rewrite (orElse_left m _ Hm).
    rewrite (take_all 5000 m) by lia.
    apply Nat.ltb_lt in Hlen. rewrite Hlen. reflexivity.
Qed.

Lemma confirmation_without_context_files_utterance_witness :
  let data := ticketDataOf (extractTicketInfo "yes" (detectTicketCategory "yes")) 7 in
  let t := newTicket (sampleGenerated data []) data in
  route (sampleEnv 9) (mkRequest "yes" (Some (mkContext (Some EmptyString) None)) 7 [])
    (sampleWorld [])
  = (Ok (json (Success (mkResponse (createdText t) (Some ticket_created)
                          (Some (ticketRef t)) None None))),
     mkWorld [gradesFaq] [cashier; registrar] [t])
  /\ category t = "General Inquiry"
  /\ title t = "Request from chatbot: yes"
  /\ description t = "yes (Created via chatbot)".
Proof.
  intros data t.
  destruct (confirmation_without_context_files_utterance (sampleEnv 9)
              (sampleWorld []) "yes" (Some (mkContext (Some EmptyString) None)) 7 []
              (sampleGenerated data []))
    as [Hroute [Hcat [Htitle Hdesc]]].
  - vm_compute. reflexivity.
  - vm_compute. reflexivity.
  - reflexivity.
  - reflexivity.
  - reflexivity.
  - split; [exact Hroute|]. split; [exact Hcat|].
    split; [apply Htitle|apply Hdesc]; vm_compute; repeat constructor.
Defined.

(** ** The admin routes *)

Module AdminFacts.
Import Admin.

Lemma ceilDiv_zero n : 0 < n -> ceilDiv 0 n = 0.
Proof.
  intros Hn. unfold ceilDiv. rewrite Nat.Div0.mod_0_l. simpl.
  apply Nat.Div0.div_0_l.
Qed.

Lemma ceilDiv_step len n :
  0 < n -> 0 < len -> ceilDiv len n = S (ceilDiv (len - n) n).
Proof.
  intros Hn Hlen. unfold ceilDiv.
  destruct (Nat.le_gt_cases len n) as [Hle|Hgt].
  - replace (len - n) with 0 by lia.
    rewrite Nat.Div0.mod_0_l, Nat.Div0.div_0_l. simpl.
    destruct (Nat.eq_dec len n) as [->|Hne].
    + rewrite Nat.Div0.mod_same, Nat.div_same by lia. reflexivity.
    + rewrite Nat.mod_small, Nat.div_small by lia.
      destruct len; [lia|reflexivity].
  - assert (Hmod : len mod n = (len - n) mod n).
    { replace len with ((len - n) + 1 * n) at 1 by lia.
      apply Nat.Div0.mod_add. }
    assert (Hdiv : len / n = S ((len - n) / n)).
    { replace len with ((len - n) + 1 * n) at 1 by lia.
      rewrite Nat.div_add by lia. lia. }
    rewrite Hmod, Hdiv.
    destruct ((len - n) mod n =? 0); reflexivity.
Qed.

Lemma ceilDiv_bounds len n :
  0 < n -> len <= ceilDiv len n * n /\ (0 < len -> (ceilDiv len n - 1) * n < len).
Proof.
  intros Hn. unfold ceilDiv.
  pose proof (Nat.div_mod_eq len n) as Hdm.
  pose proof (Nat.mod_upper_bound len n ltac:(lia)) as Hub.
  destruct (len mod n =? 0) eqn:Hz.
  - apply Nat.eqb_eq in Hz. split; [nia|].
    intros Hpos. destruct (len / n) eqn:Hq; [nia|]. simpl. nia.
  - apply Nat.eqb_neq in Hz. split; [nia|]. intros _. simpl. nia.
Qed.

(** Cutting a list into pages and gluing the pages gives the list back. *)
Lemma pages_glue {A} (n : nat) :
  0 < n ->
  forall fuel (l : list A),
    List.length l <= fuel ->
    concat (map (fun i => firstn n (skipn (i * n) l))
              (seq 0 (ceilDiv (List.length l) n))) = l.
Proof.
  intros Hn. induction fuel as [|fuel IH]; intros l Hlen.
  - destruct l; [|simpl in Hlen; lia]. simpl. rewrite ceilDiv_zero by exact Hn.
    reflexivity.
  - destruct l as [|a l'] eqn:Hl.
    + simpl. rewrite ceilDiv_zero by exact Hn. reflexivity.
    + rewrite <- Hl in *.
      assert (Hpos : 0 < List.length l) by (rewrite Hl; simpl; lia).
      assert (Hrest : List.length (skipn n l) <= fuel).
      { rewrite length_skipn. lia. }
      specialize (IH (skipn n l) Hrest). rewrite length_skipn in IH.
      rewrite (ceilDiv_step _ n Hn Hpos).
      cbn [seq map concat]. rewrite <- seq_shift, map_map.
      rewrite (map_ext (fun i => firstn n (skipn (S i * n) l))
                 (fun i => firstn n (skipn (i * n) (skipn n l)))).
      * rewrite IH. simpl. apply firstn_skipn.
      * intros i. f_equal. rewrite skipn_skipn. f_equal. simpl. lia.
Qed.

Lemma listTickets_ok env req w :
  lr_errors req = [] ->
  (forall step, failure env step = None) ->
  listTickets env req w
  = (Ok (mkAdminHttp 200
           (TicketPage
              (firstn (orDefault (lr_limit req) 10)
                 (skipn ((orDefault (lr_page req) 1 - 1) * orDefault (lr_limit req) 10)
                    (selected env req w)))
              (mkPagination (orDefault (lr_page req) 1) (orDefault (lr_limit req) 10)
                 (List.length (filter (matchesTicketQuery env (queryOf req))
                                 (adminTickets w)))
                 (ceilDiv
                    (List.length (filter (matchesTicketQuery env (queryOf req))
                                    (adminTickets w)))
                    (orDefault (lr_limit req) 10))))), w).
Proof.
  intros Hv Hok.
  unfold listTickets, acatch, abind, buildQuery, findPage, countTickets, await, aret.
  rewrite Hv. cbv zeta.
  destruct (tq_search (queryOf req)); rewrite ?Hok; reflexivity.
Qed.

(** X16: the ticket list of the admin route is paged consistently. With a
    positive limit and a sort that keeps the number of tickets, page [p]
    holds the tickets from position [(p - 1) * limit] on, at most [limit] of
    them; the number of pages covers the total exactly; the pages from 1 to
    the last, glued in order, are all the selected tickets; and every page
    after the last is empty. *)
Theorem admin_pages_partition env req w :
  lr_errors req = [] ->
  (forall step, failure env step = None) ->
  0 < orDefault (lr_limit req) 10 ->
  (forall sortBy ascending l,
     List.length (sortTickets env sortBy ascending l) = List.length l) ->
  let limit := orDefault (lr_limit req) 10 in
  let all := selected env req w in
  let pages := ceilDiv (List.length all) limit in
  (forall p, 0 < p ->
     listTickets env (atPage req p) w
     = (Ok (mkAdminHttp 200
              (TicketPage (pageOf limit p all)
                 (mkPagination p limit (List.length all) pages))), w))
  /\ (forall p, List.length (pageOf limit p all) <= limit)
  /\ List.length all <= pages * limit
  /\ (0 < List.length all -> (pages - 1) * limit < List.length all)
  /\ concat (map (fun p => pageOf limit p all) (seq 1 pages)) = all
  /\ (forall p, pages < p -> pageOf limit p all = []).
Proof.
  intros Hv Hok Hlimit Hsort limit all pages.
  assert (Hall : List.length all
                 = List.length (filter (matchesTicketQuery env (queryOf req))
                                  (adminTickets w))).
  { unfold all, selected. apply Hsort. }
  split; [|split; [|split; [|split; [|split]]]].
  - intros p Hp. rewrite listTickets_ok by assumption.
    cbn [atPage lr_limit lr_page orDefault].
    fold limit. unfold pages. rewrite Hall. reflexivity.
  - intros p. unfold pageOf. rewrite length_firstn. apply Nat.le_min_l.
  - apply ceilDiv_bounds. exact Hlimit.
  - apply ceilDiv_bounds. exact Hlimit.
  - rewrite <- seq_shift, map_map.
    rewrite (map_ext (fun i => pageOf limit (S i) all)
               (fun i => firstn limit (skipn (i * limit) all))).
    + apply (pages_glue limit Hlimit (List.length all)). apply Nat.le_refl.
    + intros i. unfold pageOf. simpl. rewrite Nat.sub_0_r. reflexivity.
  - intros p Hp. unfold pageOf.
    rewrite skipn_all2; [destruct limit; reflexivity|].
    destruct (ceilDiv_bounds (List.length all) limit Hlimit) as [Hup _].
    fold pages in Hup. nia.
Qed.


Lemma admin_pages_partition_witness :
  let all := selected quietEnv sampleList sampleStore in
  (forall p, 0 < p ->
     listTickets quietEnv (atPage sampleList p) sampleStore
     = (Ok (mkAdminHttp 200
              (TicketPage (pageOf 5 p all)
                 (mkPagination p 5 (List.length all)
                    (ceilDiv (List.length all) 5)))), sampleStore))
  /\ (forall p, List.length (pageOf 5 p all) <= 5)
  /\ List.length all <= ceilDiv (List.length all) 5 * 5
  /\ (0 < List.length all -> (ceilDiv (List.length all) 5 - 1) * 5 < List.length all)
  /\ concat (map (fun p => pageOf 5 p all) (seq 1 (ceilDiv (List.length all) 5)))
     = all
  /\ (forall p, ceilDiv (List.length all) 5 < p -> pageOf 5 p all = []).
Proof.
  apply (admin_pages_partition quietEnv sampleList sampleStore).
  - reflexivity.
  - intros step. reflexivity.
  - vm_compute. repeat constructor.
  - intros sortBy ascending l. reflexivity.
Defined.

(** *** The status update *)

Lemma lookupTicket_id id ts t :
  lookupTicket id ts = Some t -> _id (st_ticket t) = id /\ In t ts.
Proof.
  induction ts as [|x ts IH]; [discriminate|].
  simpl. destruct (String.eqb (_id (st_ticket x)) id) eqn:Hx.
  - intros H. injection H as <-. split; [apply String.eqb_eq; exact Hx|].
    left. reflexivity.
  - intros H. destruct (IH H) as [Hid Hin]. auto.
Qed.

Lemma remark_step env req old :
  _id (st_ticket old) = sr_id req ->
  match sr_remarks req with
  | Some remarks =>
      if truthy remarks && truthy (trim remarks)
      then saveComment env SaveRemark
             (mkComment (_id (st_ticket (updated env req old))) (sr_admin req)
                (trim remarks) (Some false) None)
      else aret tt
  | None => aret tt
  end
  = match remarkOf req with
    | [] => aret tt
    | c :: _ => saveComment env SaveRemark c
    end.
Proof.
  intros Hid. unfold remarkOf, updated. cbn [st_ticket withStatus _id].
  rewrite Hid.
  destruct (sr_remarks req) as [remarks|]; [|reflexivity].
  destruct (truthy remarks && truthy (trim remarks)); reflexivity.
Qed.

(** What the status update does, step by step. *)
Lemma updateStatus_found env req w old :
  sr_errors req = [] ->
  failure env FindById = None ->
  lookupTicket (sr_id req) (adminTickets w) = Some old ->
  updateStatus env req w
  = acatch
      (_ <-- (match remarkOf req with
              | [] => aret tt
              | c :: _ => saveComment env SaveRemark c
              end) ;;
       _ <-- saveTicket env (updated env req old) ;;
       _ <-- saveComment env SaveStatusNote (noteOf req old) ;;
       _ <-- await env PopulateCreator (aret tt) ;;
       _ <-- await env PopulateAssignee (aret tt) ;;
       aret (mkAdminHttp 200 (StatusUpdated (updated env req old))))
      (fun error => aret (failed env "Error updating ticket status" error)) w.
Proof.
  intros Hv Hfind Hold.
  destruct (lookupTicket_id _ _ _ Hold) as [Hid _].
  unfold updateStatus, acatch. rewrite Hv.
  unfold abind at 1. unfold findById, await at 1. rewrite Hfind, Hold.
  cbv zeta. fold (updated env req old).
  rewrite (remark_step env req old Hid).
  unfold noteOf. cbn [updated st_ticket withStatus _id]. rewrite Hid.
  reflexivity.
Qed.




(** X18: when the remarks were saved and the save of the ticket then fails,
    the route answers 500, and the store keeps the remark although the
    ticket still has its old status and no status note was written. *)
Theorem remark_survives_failed_update env req w old c e :
  sr_errors req = [] ->
  failure env FindById = None ->
  lookupTicket (sr_id req) (adminTickets w) = Some old ->
  remarkOf req = [c] ->
  failure env SaveRemark = None ->
  failure env SaveTicket = Some e ->
  updateStatus env req w
  = (Ok (failed env "Error updating ticket status" e),
     mkAdminWorld (adminTickets w) (adminComments w ++ [c])%list)
  /\ ah_status (failed env "Error updating ticket status" e) = 500
  /\ lookupTicket (sr_id req) (adminTickets w) = Some old.
Proof.
  intros Hv Hfind Hold Hr Hremark Hsave.
  split; [|split; [reflexivity|exact Hold]].
  rewrite (updateStatus_found env req w old Hv Hfind Hold).
  unfold acatch, abind, saveComment, saveTicket, await, aret.
  rewrite Hr, Hremark. cbv beta iota. rewrite Hsave. reflexivity.
Qed.

Lemma remark_survives_failed_update_witness :
  updateStatus saveFailingEnv sampleUpdate sampleStore
  = (Ok (failed saveFailingEnv "Error updating ticket status"
           (mkError "MongoError" "write failed")),
     mkAdminWorld (adminTickets sampleStore)
       [mkComment "id7" 1 "Please bring your ID" (Some false) None]).
Proof.
  apply (proj1 (remark_survives_failed_update saveFailingEnv sampleUpdate
                  sampleStore (mkStored (sampleTicket 7 7) 7)
                  (mkComment "id7" 1 "Please bring your ID" (Some false) None)
                  (mkError "MongoError" "write failed")
                  eq_refl eq_refl eq_refl eq_refl eq_refl eq_refl)).
Defined.

(** X19: whatever fails, a status update answers (it never throws), keeps
    the number, order and identifiers of the stored tickets, changes at most
    the ticket it was asked for, and only adds comments: at most two, on that
    ticket and by the acting admin, after the existing ones. With validation
    errors it answers 400 and with an unknown identifier 404, and in both
    cases the store is unchanged. *)
Theorem status_update_frame env req w :
  exists h w',
    updateStatus env req w = (Ok h, w')
    /\ (adminTickets w' = adminTickets w
        \/ exists old,
             lookupTicket (sr_id req) (adminTickets w) = Some old
             /\ adminTickets w' = replaced (updated env req old) (adminTickets w))
    /\ map (fun t => _id (st_ticket t)) (adminTickets w')
       = map (fun t => _id (st_ticket t)) (adminTickets w)
    /\ (exists added,
          adminComments w' = (adminComments w ++ added)%list
          /\ List.length added <= 2
          /\ Forall (fun c => cm_ticket c = sr_id req /\ cm_author c = sr_admin req)
               added)
    /\ (sr_errors req <> [] -> ah_status h = 400 /\ w' = w)
    /\ (sr_errors req = [] -> failure env FindById = None ->
        lookupTicket (sr_id req) (adminTickets w) = None ->
        h = mkAdminHttp 404 AdminNotFound /\ w' = w).
Proof.
  assert (Hnoadd : exists added : list Comment,
            adminComments w = (adminComments w ++ added)%list
            /\ List.length added <= 2
            /\ Forall (fun c => cm_ticket c = sr_id req /\ cm_author c = sr_admin req)
                 added).
  { exists []. rewrite app_nil_r. repeat split; [simpl; lia|constructor]. }
  destruct (sr_errors req) as [|err errs] eqn:Hv.
  2:{ unfold updateStatus, acatch. rewrite Hv. unfold aret.
      eexists. eexists. split; [reflexivity|].
      repeat split; auto; discriminate. }
  destruct (failure env FindById) as [e|] eqn:Hfind.
  { unfold updateStatus, acatch, abind, findById, await. rewrite Hv, Hfind.
    unfold aret. eexists. eexists. split; [reflexivity|].
    repeat split; auto; try congruence; discriminate. }
  destruct (lookupTicket (sr_id req) (adminTickets w)) as [old|] eqn:Hold.
  2:{ unfold updateStatus, acatch, abind, findById, await. rewrite Hv, Hfind, Hold.
      unfold aret. eexists. eexists. split; [reflexivity|].
      repeat split; auto; try congruence; discriminate. }
  destruct (lookupTicket_id _ _ _ Hold) as [Hid _].
  assert (Hids : map (fun t => _id (st_ticket t))
                   (replaced (updated env req old) (adminTickets w))
                 = map (fun t => _id (st_ticket t)) (adminTickets w)).
  { unfold replaced. rewrite map_map. apply map_ext. intros t.
    destruct (String.eqb (_id (st_ticket t)) (_id (st_ticket (updated env req old))))
      eqn:Ht; [|reflexivity].
    apply String.eqb_eq in Ht. symmetry. exact Ht. }
  assert (Hremark : Forall (fun c => cm_ticket c = sr_id req
                                     /\ cm_author c = sr_admin req) (remarkOf req)
                    /\ List.length (remarkOf req) <= 1).
  { unfold remarkOf. destruct (sr_remarks req) as [r|]; [|split; [constructor|simpl; lia]].
    destruct (truthy r && truthy (trim r)); split;
      try (simpl; lia); repeat constructor. }
  destruct Hremark as [Hrem Hremlen].
  rewrite (updateStatus_found env req w old Hv Hfind Hold).
  unfold acatch, abind, saveComment, saveTicket, await, aret.
  assert (Hshape : remarkOf req = [] \/ exists c, remarkOf req = [c]).
  { destruct (remarkOf req) as [|c [|c' rest]]; [left; reflexivity|right; eauto|].
    simpl in Hremlen. lia. }
  destruct Hshape as [Hr|[c Hr]]; rewrite Hr in *.
  - destruct (failure env SaveTicket) eqn:Hst.
    { eexists. eexists. split; [reflexivity|].
      repeat split; auto; try congruence; discriminate. }
    cbn [adminTickets adminComments].
    destruct (failure env SaveStatusNote) eqn:Hsn;
      [|destruct (failure env PopulateCreator) eqn:Hpc;
        [|destruct (failure env PopulateAssignee) eqn:Hpa]];
      (eexists; eexists; split; [reflexivity|]);
      cbn [adminTickets adminComments];
      (split; [right; exists old; split; reflexivity|]);
      (split; [exact Hids|]);
      (split; [|split; [congruence|intros _ _ H; discriminate H]]).
    + exists []. rewrite app_nil_r. repeat split; [simpl; lia|constructor].
    + exists [noteOf req old]. repeat split; [simpl; lia|repeat constructor].
    + exists [noteOf req old]. repeat split; [simpl; lia|repeat constructor].
    + exists [noteOf req old]. repeat split; [simpl; lia|repeat constructor].
  - destruct (failure env SaveRemark) eqn:Hsr.
    { eexists. eexists. split; [reflexivity|].
      repeat split; auto; try congruence; discriminate. }
    cbn [adminTickets adminComments].
    destruct (failure env SaveTicket) eqn:Hst.
    { eexists. eexists. split; [reflexivity|]. cbn [adminTickets adminComments].
      split; [left; reflexivity|]. split; [reflexivity|].
      split; [|split; [congruence|intros _ _ H; discriminate H]].
      exists [c]. repeat split; [simpl; lia|exact Hrem]. }
    cbn [adminTickets adminComments].
    inversion Hrem as [|? ? Hc _]; subst.
    destruct (failure env SaveStatusNote) eqn:Hsn;
      [|destruct (failure env PopulateCreator) eqn:Hpc;
        [|destruct (failure env PopulateAssignee) eqn:Hpa]];
      (eexists; eexists; split; [reflexivity|]);
      cbn [adminTickets adminComments];
      (split; [right; exists old; split; reflexivity|]);
      (split; [exact Hids|]);
      (split; [|split; [congruence|intros _ _ H; discriminate H]]).
    + exists [c]. repeat split; [simpl; lia|repeat constructor; apply Hc].
    + exists [c; noteOf req old]. rewrite <- app_assoc.
      repeat split; [simpl; lia|repeat constructor; apply Hc].
    + exists [c; noteOf req old]. rewrite <- app_assoc.
      repeat split; [simpl; lia|repeat constructor; apply Hc].
    + exists [c; noteOf req old]. rewrite <- app_assoc.
      repeat split; [simpl; lia|repeat constructor; apply Hc].
Qed.

End AdminFacts.
